(** * Option-Trading-Backtesting: payoff evaluator and break-even solver

    Shallow embedding of [calculate_payoff] and [calculate_break_even]
    from [Option_trading.py], and the properties of the two functions.

    Numbers.  The Python code computes on IEEE doubles (numpy arrays
    for the price grid, scalars for strikes and premiums).  The main
    embedding takes them as exact rationals [Q]: every arithmetic
    operation of the source becomes the same operation on [Q],
    [np.maximum] and [np.minimum] become [Qmax] and [Qmin].  It decides
    the statements that rounding cannot change: errors, shapes, which
    arguments are read, orders and bounds that follow from the
    monotonicity of rounding, and equalities between computations that
    round in the same way; where a tolerance is stated, the magnitudes
    are bounded.  The module [Double] repeats the embedding on binary64
    floats and is used to evaluate the code where the last bit matters.

    Arrays.  A numpy array over the price grid is a list; an expression
    of the source that broadcasts scalars over [stock_prices] is the
    [map] of the same pointwise expression over the grid, and the
    in-place [payoff += e] is the elementwise sum [arr_add].

    Errors.  Python exceptions are values of [exn]; a call either
    returns ([Ok]) or raises ([Raise]).  A list subscript out of range
    raises [IndexError]. *)

From Stdlib Require Import QArith Qminmax Qabs Lqa String List Bool Lia PeanoNat.
From Stdlib Require Import PrimFloat.

#[local] Set Warnings "-inexact-float".
Import ListNotations.

Local Open Scope string_scope.
Local Open Scope Q_scope.

(** ** Exceptions and results *)

Inductive exn : Type :=
| ValueError (msg : string)
| IndexError.

Inductive result (A : Type) : Type :=
| Ok (a : A)
| Raise (e : exn).

Arguments Ok {A} a.
Arguments Raise {A} e.

Definition bind {A B : Type} (m : result A) (f : A -> result B) : result B :=
  match m with
  | Ok a => f a
  | Raise e => Raise e
  end.

Notation "x <- m ;; k" := (bind m (fun x => k))
  (at level 61, m at next level, right associativity).

(** [xs[i]] for a Python list and a non-negative literal index. *)
Definition index {A : Type} (xs : list A) (i : nat) : result A :=
  match nth_error xs i with
  | Some x => Ok x
  | None => Raise IndexError
  end.

(** [s in names] for a list of string literals. *)
Definition str_in (s : string) (names : list string) : bool :=
  existsb (String.eqb s) names.

(** [strategy == name and avg_stock_price is not None]: the average
    price when both tests succeed. *)
Definition and_is_not_None (test : bool) (avg_stock_price : option Q) : option Q :=
  if test then avg_stock_price else None.

(** ** The strategy catalog: the keys of [STRATEGIES] *)

Definition STRATEGIES : list string :=
  [ "Long Call"; "Long Put"; "Covered Call"; "Protective Put";
    "Iron Condor"; "Bull Put Spread"; "Bear Call Spread";
    "Long Straddle"; "Short Straddle"; "Long Strangle"; "Short Strangle";
    "Butterfly Spread"; "Iron Butterfly"; "Collar" ].

(** ** Arrays over the price grid *)

Definition np_zeros_like (a : list Q) : list Q := map (fun _ => 0) a.

(** Elementwise sum of two arrays of the same shape ([payoff += e]). *)
Fixpoint arr_add (a b : list Q) : list Q :=
  match a, b with
  | x :: a', y :: b' => (x + y) :: arr_add a' b'
  | _, _ => []
  end.

(** ** calculate_payoff *)

(** The leg-count guard at the head of [calculate_payoff]. *)
Definition check_leg_count (strategy : string) (strike_prices : list Q) : result unit :=
  if str_in strategy ["Iron Condor"; "Iron Butterfly"]
     && (length strike_prices <? 4)%nat then
    Raise (ValueError (strategy ++ " requires 4 strike prices and 4 premiums."))
  else if str_in strategy ["Bull Put Spread"; "Bear Call Spread"; "Collar"]
          && (length strike_prices <? 2)%nat then
    Raise (ValueError (strategy ++ " requires 2 strike prices and 2 premiums."))
  else if str_in strategy ["Long Straddle"; "Short Straddle"; "Long Strangle"; "Short Strangle"]
          && (length strike_prices <? 2)%nat then
    Raise (ValueError (strategy ++ " requires 2 strike prices and 2 premiums."))
  else Ok tt.

(** One iteration of [for i, strike_price in enumerate(strike_prices)]. *)
Definition leg_step (stock_prices : list Q) (premiums : list Q) (positions : list string)
    (i : nat) (strike_price : Q) (payoff : list Q) : result (list Q) :=
  pos <- index positions i ;;
  if pos =? "Call" then
    p <- index premiums i ;;
    Ok (arr_add payoff (map (fun S => Qmax (S - strike_price) 0 - p) stock_prices))
  else if pos =? "Put" then
    p <- index premiums i ;;
    Ok (arr_add payoff (map (fun S => Qmax (strike_price - S) 0 - p) stock_prices))
  else Ok payoff.

(** The loop over the legs, from index [i] on. *)
Fixpoint leg_loop (stock_prices : list Q) (premiums : list Q) (positions : list string)
    (i : nat) (strike_prices : list Q) (payoff : list Q) : result (list Q) :=
  match strike_prices with
  | [] => Ok payoff
  | strike_price :: rest =>
      payoff' <- leg_step stock_prices premiums positions i strike_price payoff ;;
      leg_loop stock_prices premiums positions (S i) rest payoff'
  end.

(** The [if]/[elif] chain that follows the loop; [payoff] is the value
    accumulated by the loop, returned when no branch is taken. *)
Definition strategy_branch (strategy : string) (stock_prices strike_prices premiums : list Q)
    (avg_stock_price : option Q) (payoff : list Q) : result (list Q) :=
  match and_is_not_None (strategy =? "Covered Call") avg_stock_price with
  | Some avg =>
      k0 <- index strike_prices 0 ;;
      p0 <- index premiums 0 ;;
      Ok (map (fun S => (S - avg) + Qmin 0 (k0 - S) + p0) stock_prices)
  | None =>
  match and_is_not_None (strategy =? "Protective Put") avg_stock_price with
  | Some avg =>
      k0 <- index strike_prices 0 ;;
      p0 <- index premiums 0 ;;
      Ok (map (fun S => (S - avg) + Qmax (k0 - S) 0 - p0) stock_prices)
  | None =>
  if strategy =? "Iron Condor" then
    k0 <- index strike_prices 0 ;; p0 <- index premiums 0 ;;
    k1 <- index strike_prices 1 ;; p1 <- index premiums 1 ;;
    k2 <- index strike_prices 2 ;; p2 <- index premiums 2 ;;
    k3 <- index strike_prices 3 ;; p3 <- index premiums 3 ;;
    Ok (map (fun S =>
          let short_call_payoff := - Qmax 0 (S - k0) + p0 in
          let long_call_payoff := Qmax 0 (S - k1) - p1 in
          let short_put_payoff := - Qmax 0 (k2 - S) + p2 in
          let long_put_payoff := Qmax 0 (k3 - S) - p3 in
          short_call_payoff + long_call_payoff + short_put_payoff + long_put_payoff)
        stock_prices)
  else if strategy =? "Bull Put Spread" then
    k0 <- index strike_prices 0 ;; p0 <- index premiums 0 ;;
    k1 <- index strike_prices 1 ;; p1 <- index premiums 1 ;;
    Ok (map (fun S =>
          let short_put_payoff := Qmax 0 (k0 - S) - p0 in
          let long_put_payoff := Qmax 0 (k1 - S) - p1 in
          long_put_payoff - short_put_payoff)
        stock_prices)
  else if strategy =? "Bear Call Spread" then
    k0 <- index strike_prices 0 ;; p0 <- index premiums 0 ;;
    k1 <- index strike_prices 1 ;; p1 <- index premiums 1 ;;
    Ok (map (fun S =>
          let short_call_payoff := Qmin 0 (k0 - S) + p0 in
          let long_call_payoff := Qmax 0 (S - k1) - p1 in
          long_call_payoff + short_call_payoff)
        stock_prices)
  else if strategy =? "Long Straddle" then
    k0 <- index strike_prices 0 ;; p0 <- index premiums 0 ;;
    k0' <- index strike_prices 0 ;; p1 <- index premiums 1 ;;
    Ok (map (fun S =>
          let long_call_payoff := Qmax (S - k0) 0 - p0 in
          let long_put_payoff := Qmax (k0' - S) 0 - p1 in
          long_call_payoff + long_put_payoff)
        stock_prices)
  else if strategy =? "Short Straddle" then
    k0 <- index strike_prices 0 ;; p0 <- index premiums 0 ;;
    k0' <- index strike_prices 0 ;; p1 <- index premiums 1 ;;
    Ok (map (fun S =>
          let short_call_payoff := Qmin 0 (S - k0) + p0 in
          let short_put_payoff := Qmin 0 (k0' - S) + p1 in
          short_call_payoff + short_put_payoff)
        stock_prices)
  else if strategy =? "Long Strangle" then
    k0 <- index strike_prices 0 ;; p0 <- index premiums 0 ;;
    k1 <- index strike_prices 1 ;; p1 <- index premiums 1 ;;
    Ok (map (fun S =>
          let long_call_payoff := Qmax (S - k0) 0 - p0 in
          let long_put_payoff := Qmax (k1 - S) 0 - p1 in
          long_call_payoff + long_put_payoff)
        stock_prices)
  else if strategy =? "Short Strangle" then
    k0 <- index strike_prices 0 ;; p0 <- index premiums 0 ;;
    k1 <- index strike_prices 1 ;; p1 <- index premiums 1 ;;
    Ok (map (fun S =>
          let short_call_payoff := - (Qmax 0 (S - k0)) + p0 in
          let short_put_payoff := - (Qmax 0 (k1 - S)) + p1 in
          short_call_payoff + short_put_payoff)
        stock_prices)
  else if strategy =? "Iron Butterfly" then
    k0 <- index strike_prices 0 ;; p0 <- index premiums 0 ;;
    k1 <- index strike_prices 1 ;; p1 <- index premiums 1 ;;
    k2 <- index strike_prices 2 ;; p2 <- index premiums 2 ;;
    k3 <- index strike_prices 3 ;; p3 <- index premiums 3 ;;
    Ok (map (fun S =>
          let long_put_payoff := Qmax 0 (k0 - S) - p0 in
          let short_put_payoff := - (Qmax 0 (k1 - S)) + p1 in
          let short_call_payoff := - (Qmax 0 (S - k2)) + p2 in
          let long_call_payoff := Qmax 0 (S - k3) - p3 in
          short_call_payoff + short_put_payoff + long_call_payoff + long_put_payoff)
        stock_prices)
  else if strategy =? "Butterfly Spread" then
    k0 <- index strike_prices 0 ;; p0 <- index premiums 0 ;;
    k1 <- index strike_prices 1 ;; p1 <- index premiums 1 ;;
    k2 <- index strike_prices 2 ;; p2 <- index premiums 2 ;;
    Ok (map (fun S =>
          let itm_call_payoff := Qmax (S - k0) 0 - p0 in
          let atm_call_payoff := 2 * (Qmin 0 (k1 - S) + p1) in
          let otm_call_payoff := Qmax (S - k2) 0 - p2 in
          itm_call_payoff + atm_call_payoff + otm_call_payoff)
        stock_prices)
  else
  match and_is_not_None (strategy =? "Collar") avg_stock_price with
  | Some avg =>
      k0 <- index strike_prices 0 ;; p0 <- index premiums 0 ;;
      k1 <- index strike_prices 1 ;; p1 <- index premiums 1 ;;
      Ok (map (fun S =>
            let stock_payoff := S - avg in
            let put_payoff := Qmax 0 (k0 - S) - p0 in
            let call_payoff := - Qmax 0 (S - k1) + p1 in
            stock_payoff + put_payoff + call_payoff)
          stock_prices)
  | None => Ok payoff
  end end end.

Definition calculate_payoff (strategy : string) (stock_prices strike_prices premiums : list Q)
    (positions : list string) (avg_stock_price : option Q) : result (list Q) :=
  let payoff := np_zeros_like stock_prices in
  _ <- check_leg_count strategy strike_prices ;;
  payoff <- leg_loop stock_prices premiums positions 0 strike_prices payoff ;;
  strategy_branch strategy stock_prices strike_prices premiums avg_stock_price payoff.

(** ** calculate_break_even *)

(** An entry of the returned list: a price, or one of the strings the
    source returns in place of a number. *)
Inductive be_entry : Type :=
| Price (q : Q)
| Marker (s : string).

Definition calculate_break_even (strategy : string) (strike_prices premiums : list Q)
    (avg_stock_price : option Q) : result (list be_entry) :=
  if strategy =? "Long Call" then
    k0 <- index strike_prices 0 ;; p0 <- index premiums 0 ;;
    Ok [Price (k0 + p0)]
  else if strategy =? "Long Put" then
    k0 <- index strike_prices 0 ;; p0 <- index premiums 0 ;;
    Ok [Price (k0 - p0)]
  else if strategy =? "Covered Call" then
    match avg_stock_price with
    | Some avg => p0 <- index premiums 0 ;; Ok [Price (avg + p0)]
    | None => Ok [Marker "Avg Stock Price Required"]
    end
  else if strategy =? "Protective Put" then
    match avg_stock_price with
    | Some avg => p0 <- index premiums 0 ;; Ok [Price (avg - p0)]
    | None => Ok [Marker "Avg Stock Price Required"]
    end
  else if strategy =? "Iron Condor" then
    p0 <- index premiums 0 ;; p2 <- index premiums 2 ;;
    p1 <- index premiums 1 ;; p3 <- index premiums 3 ;;
    let net_credit := (p0 + p2) - (p1 + p3) in
    k2 <- index strike_prices 2 ;;
    let lower_bep := k2 - net_credit in
    k0 <- index strike_prices 0 ;;
    let upper_bep := k0 + net_credit in
    Ok [Price lower_bep; Price upper_bep]
  else if strategy =? "Bull Put Spread" then
    p0 <- index premiums 0 ;; p1 <- index premiums 1 ;;
    let net_credit := p0 - p1 in
    k0 <- index strike_prices 0 ;;
    let break_even_point := k0 - net_credit in
    Ok [Price break_even_point]
  else if strategy =? "Bear Call Spread" then
    if (length premiums <? 2)%nat then
      Raise (ValueError "Bear Call Spread requires exactly two premiums (short call and long call).")
    else
      p0 <- index premiums 0 ;; p1 <- index premiums 1 ;;
      let net_premium := p0 - p1 in
      k0 <- index strike_prices 0 ;;
      let break_even_point := k0 + net_premium in
      Ok [Price break_even_point]
  else if strategy =? "Long Straddle" then
    p0 <- index premiums 0 ;; p1 <- index premiums 1 ;;
    let total_premium := p0 + p1 in
    k0 <- index strike_prices 0 ;;
    let lower_bep := k0 - total_premium in
    k0' <- index strike_prices 0 ;;
    let upper_bep := k0' + total_premium in
    Ok [Price lower_bep; Price upper_bep]
  else if strategy =? "Short Straddle" then
    p0 <- index premiums 0 ;; p1 <- index premiums 1 ;;
    let total_premium := p0 + p1 in
    k0 <- index strike_prices 0 ;;
    let lower_bep := k0 - total_premium in
    k0' <- index strike_prices 0 ;;
    let upper_bep := k0' + total_premium in
    Ok [Price lower_bep; Price upper_bep]
  else if strategy =? "Long Strangle" then
    p0 <- index premiums 0 ;; p1 <- index premiums 1 ;;
    let total_premium := p0 + p1 in
    k1 <- index strike_prices 1 ;;
    let lower_bep := k1 - total_premium in
    k0 <- index strike_prices 0 ;;
    let upper_bep := k0 + total_premium in
    Ok [Price lower_bep; Price upper_bep]
  else if strategy =? "Short Strangle" then
    p0 <- index premiums 0 ;; p1 <- index premiums 1 ;;
    let total_premium := p0 + p1 in
    k1 <- index strike_prices 1 ;;
    let lower_bep := k1 - total_premium in
    k0 <- index strike_prices 0 ;;
    let upper_bep := k0 + total_premium in
    Ok [Price lower_bep; Price upper_bep]
  else if strategy =? "Butterfly Spread" then
    p0 <- index premiums 0 ;; p1 <- index premiums 1 ;; p2 <- index premiums 2 ;;
    let net_premium := p0 - (2 * p1) + p2 in
    k0 <- index strike_prices 0 ;;
    let lower_bep := k0 + net_premium in
    k2 <- index strike_prices 2 ;;
    let upper_bep := k2 - net_premium in
    Ok [Price lower_bep; Price upper_bep]
  else if strategy =? "Iron Butterfly" then
    p0 <- index premiums 0 ;; p1 <- index premiums 1 ;;
    p2 <- index premiums 2 ;; p3 <- index premiums 3 ;;
    let total_premium := p0 - p1 - p2 + p3 in
    k1 <- index strike_prices 1 ;;
    let lower_bep := k1 - total_premium in
    k1' <- index strike_prices 1 ;;
    let upper_bep := k1' + total_premium in
    Ok [Price lower_bep; Price upper_bep]
  else if strategy =? "Collar" then
    match avg_stock_price with
    | Some avg =>
        p0 <- index premiums 0 ;;
        let lower_bep := avg - p0 in
        p1 <- index premiums 1 ;;
        let upper_bep := avg + p1 in
        Ok [Price lower_bep; Price upper_bep]
    | None => Ok [Marker "Avg Stock Price Required"]
    end
  else Ok [Marker "N/A"].

(** ** The same two functions on IEEE doubles

    [Double] repeats the embedding with the primitive binary64 floats
    of Rocq in place of [Q]: every [+], [-], [*] and unary [-] rounds
    as the Python code does.  It is used to evaluate the code on
    concrete inputs where rounding decides the outcome; statements over
    all inputs are proved on the rational embedding above and are
    chosen so that rounding does not affect them. *)

Module Double.

Local Close Scope Q_scope.
Local Open Scope float_scope.
Local Open Scope string_scope.

(** [np.maximum] and [np.minimum]: the first argument when it is
    the larger (smaller) one or a NaN, else the second. *)
Definition np_maximum (a b : float) : float :=
  if (PrimFloat.leb b a || PrimFloat.is_nan a)%bool then a else b.

Definition np_minimum (a b : float) : float :=
  if (PrimFloat.leb a b || PrimFloat.is_nan a)%bool then a else b.

Definition and_is_not_None (test : bool) (avg_stock_price : option float) : option float :=
  if test then avg_stock_price else None.

(** Arrays over the price grid. *)

Definition np_zeros_like (a : list float) : list float := map (fun _ => 0) a.

(** Elementwise sum of two arrays of the same shape ([payoff += e]). *)
Fixpoint arr_add (a b : list float) : list float :=
  match a, b with
  | x :: a', y :: b' => (x + y) :: arr_add a' b'
  | _, _ => []
  end.

(** [calculate_payoff] on doubles. *)

(** The leg-count guard at the head of [calculate_payoff]. *)
Definition check_leg_count (strategy : string) (strike_prices : list float) : result unit :=
  if str_in strategy ["Iron Condor"; "Iron Butterfly"]
     && (length strike_prices <? 4)%nat then
    Raise (ValueError (strategy ++ " requires 4 strike prices and 4 premiums."))
  else if str_in strategy ["Bull Put Spread"; "Bear Call Spread"; "Collar"]
          && (length strike_prices <? 2)%nat then
    Raise (ValueError (strategy ++ " requires 2 strike prices and 2 premiums."))
  else if str_in strategy ["Long Straddle"; "Short Straddle"; "Long Strangle"; "Short Strangle"]
          && (length strike_prices <? 2)%nat then
    Raise (ValueError (strategy ++ " requires 2 strike prices and 2 premiums."))
  else Ok tt.

(** One iteration of [for i, strike_price in enumerate(strike_prices)]. *)
Definition leg_step (stock_prices : list float) (premiums : list float) (positions : list string)
    (i : nat) (strike_price : float) (payoff : list float) : result (list float) :=
  pos <- index positions i ;;
  if pos =? "Call" then
    p <- index premiums i ;;
    Ok (arr_add payoff (map (fun S => np_maximum (S - strike_price) 0 - p) stock_prices))
  else if pos =? "Put" then
    p <- index premiums i ;;
    Ok (arr_add payoff (map (fun S => np_maximum (strike_price - S) 0 - p) stock_prices))
  else Ok payoff.

(** The loop over the legs, from index [i] on. *)
Fixpoint leg_loop (stock_prices : list float) (premiums : list float) (positions : list string)
    (i : nat) (strike_prices : list float) (payoff : list float) : result (list float) :=
  match strike_prices with
  | [] => Ok payoff
  | strike_price :: rest =>
      payoff' <- leg_step stock_prices premiums positions i strike_price payoff ;;
      leg_loop stock_prices premiums positions (S i) rest payoff'
  end.

(** The [if]/[elif] chain that follows the loop; [payoff] is the value
    accumulated by the loop, returned when no branch is taken. *)
Definition strategy_branch (strategy : string) (stock_prices strike_prices premiums : list float)
    (avg_stock_price : option float) (payoff : list float) : result (list float) :=
  match and_is_not_None (strategy =? "Covered Call") avg_stock_price with
  | Some avg =>
      k0 <- index strike_prices 0 ;;
      p0 <- index premiums 0 ;;
      Ok (map (fun S => (S - avg) + np_minimum 0 (k0 - S) + p0) stock_prices)
  | None =>
  match and_is_not_None (strategy =? "Protective Put") avg_stock_price with
  | Some avg =>
      k0 <- index strike_prices 0 ;;
      p0 <- index premiums 0 ;;
      Ok (map (fun S => (S - avg) + np_maximum (k0 - S) 0 - p0) stock_prices)
  | None =>
  if strategy =? "Iron Condor" then
    k0 <- index strike_prices 0 ;; p0 <- index premiums 0 ;;
    k1 <- index strike_prices 1 ;; p1 <- index premiums 1 ;;
    k2 <- index strike_prices 2 ;; p2 <- index premiums 2 ;;
    k3 <- index strike_prices 3 ;; p3 <- index premiums 3 ;;
    Ok (map (fun S =>
          let short_call_payoff := - np_maximum 0 (S - k0) + p0 in
          let long_call_payoff := np_maximum 0 (S - k1) - p1 in
          let short_put_payoff := - np_maximum 0 (k2 - S) + p2 in
          let long_put_payoff := np_maximum 0 (k3 - S) - p3 in
          short_call_payoff + long_call_payoff + short_put_payoff + long_put_payoff)
        stock_prices)
  else if strategy =? "Bull Put Spread" then
    k0 <- index strike_prices 0 ;; p0 <- index premiums 0 ;;
    k1 <- index strike_prices 1 ;; p1 <- index premiums 1 ;;
    Ok (map (fun S =>
          let short_put_payoff := np_maximum 0 (k0 - S) - p0 in
          let long_put_payoff := np_maximum 0 (k1 - S) - p1 in
          long_put_payoff - short_put_payoff)
        stock_prices)
  else if strategy =? "Bear Call Spread" then
    k0 <- index strike_prices 0 ;; p0 <- index premiums 0 ;;
    k1 <- index strike_prices 1 ;; p1 <- index premiums 1 ;;
    Ok (map (fun S =>
          let short_call_payoff := np_minimum 0 (k0 - S) + p0 in
          let long_call_payoff := np_maximum 0 (S - k1) - p1 in
          long_call_payoff + short_call_payoff)
        stock_prices)
  else if strategy =? "Long Straddle" then
    k0 <- index strike_prices 0 ;; p0 <- index premiums 0 ;;
    k0' <- index strike_prices 0 ;; p1 <- index premiums 1 ;;
    Ok (map (fun S =>
          let long_call_payoff := np_maximum (S - k0) 0 - p0 in
          let long_put_payoff := np_maximum (k0' - S) 0 - p1 in
          long_call_payoff + long_put_payoff)
        stock_prices)
  else if strategy =? "Short Straddle" then
    k0 <- index strike_prices 0 ;; p0 <- index premiums 0 ;;
    k0' <- index strike_prices 0 ;; p1 <- index premiums 1 ;;
    Ok (map (fun S =>
          let short_call_payoff := np_minimum 0 (S - k0) + p0 in
          let short_put_payoff := np_minimum 0 (k0' - S) + p1 in
          short_call_payoff + short_put_payoff)
        stock_prices)
  else if strategy =? "Long Strangle" then
    k0 <- index strike_prices 0 ;; p0 <- index premiums 0 ;;
    k1 <- index strike_prices 1 ;; p1 <- index premiums 1 ;;
    Ok (map (fun S =>
          let long_call_payoff := np_maximum (S - k0) 0 - p0 in
          let long_put_payoff := np_maximum (k1 - S) 0 - p1 in
          long_call_payoff + long_put_payoff)
        stock_prices)
  else if strategy =? "Short Strangle" then
    k0 <- index strike_prices 0 ;; p0 <- index premiums 0 ;;
    k1 <- index strike_prices 1 ;; p1 <- index premiums 1 ;;
    Ok (map (fun S =>
          let short_call_payoff := - (np_maximum 0 (S - k0)) + p0 in
          let short_put_payoff := - (np_maximum 0 (k1 - S)) + p1 in
          short_call_payoff + short_put_payoff)
        stock_prices)
  else if strategy =? "Iron Butterfly" then
    k0 <- index strike_prices 0 ;; p0 <- index premiums 0 ;;
    k1 <- index strike_prices 1 ;; p1 <- index premiums 1 ;;
    k2 <- index strike_prices 2 ;; p2 <- index premiums 2 ;;
    k3 <- index strike_prices 3 ;; p3 <- index premiums 3 ;;
    Ok (map (fun S =>
          let long_put_payoff := np_maximum 0 (k0 - S) - p0 in
          let short_put_payoff := - (np_maximum 0 (k1 - S)) + p1 in
          let short_call_payoff := - (np_maximum 0 (S - k2)) + p2 in
          let long_call_payoff := np_maximum 0 (S - k3) - p3 in
          short_call_payoff + short_put_payoff + long_call_payoff + long_put_payoff)
        stock_prices)
  else if strategy =? "Butterfly Spread" then
    k0 <- index strike_prices 0 ;; p0 <- index premiums 0 ;;
    k1 <- index strike_prices 1 ;; p1 <- index premiums 1 ;;
    k2 <- index strike_prices 2 ;; p2 <- index premiums 2 ;;
    Ok (map (fun S =>
          let itm_call_payoff := np_maximum (S - k0) 0 - p0 in
          let atm_call_payoff := 2 * (np_minimum 0 (k1 - S) + p1) in
          let otm_call_payoff := np_maximum (S - k2) 0 - p2 in
          itm_call_payoff + atm_call_payoff + otm_call_payoff)
        stock_prices)
  else
  match and_is_not_None (strategy =? "Collar") avg_stock_price with
  | Some avg =>
      k0 <- index strike_prices 0 ;; p0 <- index premiums 0 ;;
      k1 <- index strike_prices 1 ;; p1 <- index premiums 1 ;;
      Ok (map (fun S =>
            let stock_payoff := S - avg in
            let put_payoff := np_maximum 0 (k0 - S) - p0 in
            let call_payoff := - np_maximum 0 (S - k1) + p1 in
            stock_payoff + put_payoff + call_payoff)
          stock_prices)
  | None => Ok payoff
  end end end.

Definition calculate_payoff (strategy : string) (stock_prices strike_prices premiums : list float)
    (positions : list string) (avg_stock_price : option float) : result (list float) :=
  let payoff := np_zeros_like stock_prices in
  _ <- check_leg_count strategy strike_prices ;;
  payoff <- leg_loop stock_prices premiums positions 0 strike_prices payoff ;;
  strategy_branch strategy stock_prices strike_prices premiums avg_stock_price payoff.

(** [calculate_break_even] on doubles. *)

(** An entry of the returned list: a price, or one of the strings the
    source returns in place of a number. *)
Inductive be_entry : Type :=
| Price (q : float)
| Marker (s : string).

Definition calculate_break_even (strategy : string) (strike_prices premiums : list float)
    (avg_stock_price : option float) : result (list be_entry) :=
  if strategy =? "Long Call" then
    k0 <- index strike_prices 0 ;; p0 <- index premiums 0 ;;
    Ok [Price (k0 + p0)]
  else if strategy =? "Long Put" then
    k0 <- index strike_prices 0 ;; p0 <- index premiums 0 ;;
    Ok [Price (k0 - p0)]
  else if strategy =? "Covered Call" then
    match avg_stock_price with
    | Some avg => p0 <- index premiums 0 ;; Ok [Price (avg + p0)]
    | None => Ok [Marker "Avg Stock Price Required"]
    end
  else if strategy =? "Protective Put" then
    match avg_stock_price with
    | Some avg => p0 <- index premiums 0 ;; Ok [Price (avg - p0)]
    | None => Ok [Marker "Avg Stock Price Required"]
    end
  else if strategy =? "Iron Condor" then
    p0 <- index premiums 0 ;; p2 <- index premiums 2 ;;
    p1 <- index premiums 1 ;; p3 <- index premiums 3 ;;
    let net_credit := (p0 + p2) - (p1 + p3) in
    k2 <- index strike_prices 2 ;;
    let lower_bep := k2 - net_credit in
    k0 <- index strike_prices 0 ;;
    let upper_bep := k0 + net_credit in
    Ok [Price lower_bep; Price upper_bep]
  else if strategy =? "Bull Put Spread" then
    p0 <- index premiums 0 ;; p1 <- index premiums 1 ;;
    let net_credit := p0 - p1 in
    k0 <- index strike_prices 0 ;;
    let break_even_point := k0 - net_credit in
    Ok [Price break_even_point]
  else if strategy =? "Bear Call Spread" then
    if (length premiums <? 2)%nat then
      Raise (ValueError "Bear Call Spread requires exactly two premiums (short call and long call).")
    else
      p0 <- index premiums 0 ;; p1 <- index premiums 1 ;;
      let net_premium := p0 - p1 in
      k0 <- index strike_prices 0 ;;
      let break_even_point := k0 + net_premium in
      Ok [Price break_even_point]
  else if strategy =? "Long Straddle" then
    p0 <- index premiums 0 ;; p1 <- index premiums 1 ;;
    let total_premium := p0 + p1 in
    k0 <- index strike_prices 0 ;;
    let lower_bep := k0 - total_premium in
    k0' <- index strike_prices 0 ;;
    let upper_bep := k0' + total_premium in
    Ok [Price lower_bep; Price upper_bep]
  else if strategy =? "Short Straddle" then
    p0 <- index premiums 0 ;; p1 <- index premiums 1 ;;
    let total_premium := p0 + p1 in
    k0 <- index strike_prices 0 ;;
    let lower_bep := k0 - total_premium in
    k0' <- index strike_prices 0 ;;
    let upper_bep := k0' + total_premium in
    Ok [Price lower_bep; Price upper_bep]
  else if strategy =? "Long Strangle" then
    p0 <- index premiums 0 ;; p1 <- index premiums 1 ;;
    let total_premium := p0 + p1 in
    k1 <- index strike_prices 1 ;;
    let lower_bep := k1 - total_premium in
    k0 <- index strike_prices 0 ;;
    let upper_bep := k0 + total_premium in
    Ok [Price lower_bep; Price upper_bep]
  else if strategy =? "Short Strangle" then
    p0 <- index premiums 0 ;; p1 <- index premiums 1 ;;
    let total_premium := p0 + p1 in
    k1 <- index strike_prices 1 ;;
    let lower_bep := k1 - total_premium in
    k0 <- index strike_prices 0 ;;
    let upper_bep := k0 + total_premium in
    Ok [Price lower_bep; Price upper_bep]
  else if strategy =? "Butterfly Spread" then
    p0 <- index premiums 0 ;; p1 <- index premiums 1 ;; p2 <- index premiums 2 ;;
    let net_premium := p0 - (2 * p1) + p2 in
    k0 <- index strike_prices 0 ;;
    let lower_bep := k0 + net_premium in
    k2 <- index strike_prices 2 ;;
    let upper_bep := k2 - net_premium in
    Ok [Price lower_bep; Price upper_bep]
  else if strategy =? "Iron Butterfly" then
    p0 <- index premiums 0 ;; p1 <- index premiums 1 ;;
    p2 <- index premiums 2 ;; p3 <- index premiums 3 ;;
    let total_premium := p0 - p1 - p2 + p3 in
    k1 <- index strike_prices 1 ;;
    let lower_bep := k1 - total_premium in
    k1' <- index strike_prices 1 ;;
    let upper_bep := k1' + total_premium in
    Ok [Price lower_bep; Price upper_bep]
  else if strategy =? "Collar" then
    match avg_stock_price with
    | Some avg =>
        p0 <- index premiums 0 ;;
        let lower_bep := avg - p0 in
        p1 <- index premiums 1 ;;
        let upper_bep := avg + p1 in
        Ok [Price lower_bep; Price upper_bep]
    | None => Ok [Marker "Avg Stock Price Required"]
    end
  else Ok [Marker "N/A"].

End Double.

(** ** Reference notions used by the statements *)

(** Two curves agree point by point, as rationals. *)
Definition curve_eq (c1 c2 : list Q) : Prop := Forall2 Qeq c1 c2.

(** The contribution of one leg in the loop of [calculate_payoff]: a
    long call for kind "Call", a long put for kind "Put", nothing for
    any other kind. *)
Definition long_leg_payoff (pos : string) (strike_price p S : Q) : Q :=
  if pos =? "Call" then Qmax (S - strike_price) 0 - p
  else if pos =? "Put" then Qmax (strike_price - S) 0 - p
  else 0.

(** The sum of the legs, each taken as a long position of its kind. *)
Fixpoint long_legs_payoff (S : Q) (strike_prices premiums : list Q)
    (positions : list string) : Q :=
  match strike_prices, premiums, positions with
  | k :: ks, p :: ps, pos :: poss =>
      long_leg_payoff pos k p S + long_legs_payoff S ks ps poss
  | _, _, _ => 0
  end.

(** The strategies whose branch in [calculate_payoff] does not depend
    on [avg_stock_price]. *)
Definition option_only_strategies : list string :=
  [ "Iron Condor"; "Bull Put Spread"; "Bear Call Spread";
    "Long Straddle"; "Short Straddle"; "Long Strangle"; "Short Strangle";
    "Butterfly Spread"; "Iron Butterfly" ].

(** The strategies whose branch is guarded by [avg_stock_price is not None]. *)
Definition stock_linked_strategies : list string :=
  [ "Covered Call"; "Protective Put"; "Collar" ].

Definition is_not_None {A : Type} (o : option A) : bool :=
  match o with Some _ => true | None => false end.

(** A branch of the [if]/[elif] chain is taken and overwrites [payoff]. *)
Definition dedicated_branch (strategy : string) (avg_stock_price : option Q) : bool :=
  str_in strategy option_only_strategies
  || (str_in strategy stock_linked_strategies && is_not_None avg_stock_price).

(** The option legs of the stock-linked strategies, each with the
    direction the strategy gives it (section 4.2 of the specification:
    a short call pays premium minus intrinsic value, a long put pays
    intrinsic value minus premium), without the stock leg. *)
Definition directed_option_legs (strategy : string) (S : Q)
    (strike_prices premiums : list Q) : Q :=
  let k i := nth i strike_prices 0 in
  let p i := nth i premiums 0 in
  if strategy =? "Covered Call" then p 0%nat - Qmax (S - k 0%nat) 0
  else if strategy =? "Protective Put" then Qmax (k 0%nat - S) 0 - p 0%nat
  else if strategy =? "Collar" then
    (Qmax (k 0%nat - S) 0 - p 0%nat) + (p 1%nat - Qmax (S - k 1%nat) 0)
  else 0.


(** The tolerance of the consistency law. *)
Definition tolerance : Q := 1 # 1000000.

(** Strikes and premiums of magnitude at most one million: the range on
    which the rounding of a double stays far below the tolerance. *)
Definition magnitude_bound : Q := 1000000.

Definition bounded_legs (strike_prices premiums : list Q) : bool :=
  forallb (fun x => Qle_bool (Qabs x) magnitude_bound) (strike_prices ++ premiums)%list.

Definition zero_within_tolerance (y : Q) : Prop := Qabs y <= tolerance.

(** The leg kinds each strategy is evaluated with: the [positions]
    argument at the call sites of [calculate_payoff]. *)
Definition leg_kinds (strategy : string) : list string :=
  if str_in strategy ["Long Call"; "Covered Call"] then ["Call"]
  else if str_in strategy ["Long Put"; "Protective Put"] then ["Put"]
  else if strategy =? "Iron Condor" then ["Call"; "Call"; "Put"; "Put"]
  else if strategy =? "Bull Put Spread" then ["Put"; "Put"]
  else if strategy =? "Bear Call Spread" then ["Call"; "Call"]
  else if str_in strategy ["Long Straddle"; "Short Straddle";
                           "Long Strangle"; "Short Strangle"] then ["Call"; "Put"]
  else if strategy =? "Butterfly Spread" then ["Call"; "Call"; "Call"]
  else if strategy =? "Iron Butterfly" then ["Put"; "Put"; "Call"; "Call"]
  else if strategy =? "Collar" then ["Put"; "Call"]
  else [].

(** Leg configurations of the option-only strategies on which the
    closed forms of [calculate_break_even] are roots of the payoff: the
    required leg count, strikes in the role order of the strategy,
    non-negative premiums for the single legs, straddles and strangles,
    and for the spreads a net credit (net debit for Butterfly Spread)
    between 0 and the width of each wing; Butterfly Spread with wings of
    equal width and Iron Butterfly with both short legs at one strike. *)
Definition roots_config (strategy : string) (strike_prices premiums : list Q) : bool :=
  if str_in strategy ["Long Call"; "Long Put"] then
    match strike_prices, premiums with
    | [_], [p0] => Qle_bool 0 p0
    | _, _ => false
    end
  else if strategy =? "Iron Condor" then
    match strike_prices, premiums with
    | [k0; k1; k2; k3], [p0; p1; p2; p3] =>
        let net_credit := (p0 + p2) - (p1 + p3) in
        Qle_bool k3 k2 && Qle_bool k2 k0 && Qle_bool k0 k1
        && Qle_bool 0 net_credit
        && Qle_bool net_credit (k2 - k3) && Qle_bool net_credit (k1 - k0)
    | _, _ => false
    end
  else if strategy =? "Bull Put Spread" then
    match strike_prices, premiums with
    | [k0; k1], [p0; p1] =>
        Qle_bool 0 (p0 - p1) && Qle_bool (p0 - p1) (k0 - k1)
    | _, _ => false
    end
  else if strategy =? "Bear Call Spread" then
    match strike_prices, premiums with
    | [k0; k1], [p0; p1] =>
        Qle_bool 0 (p0 - p1) && Qle_bool (p0 - p1) (k1 - k0)
    | _, _ => false
    end
  else if str_in strategy ["Long Straddle"; "Short Straddle"] then
    match strike_prices, premiums with
    | [_; _], [p0; p1] => Qle_bool 0 p0 && Qle_bool 0 p1
    | _, _ => false
    end
  else if str_in strategy ["Long Strangle"; "Short Strangle"] then
    match strike_prices, premiums with
    | [k0; k1], [p0; p1] => Qle_bool k1 k0 && Qle_bool 0 p0 && Qle_bool 0 p1
    | _, _ => false
    end
  else if strategy =? "Butterfly Spread" then
    match strike_prices, premiums with
    | [k0; k1; k2], [p0; p1; p2] =>
        let net_premium := p0 - (2 * p1) + p2 in
        Qeq_bool (k1 - k0) (k2 - k1)
        && Qle_bool 0 net_premium && Qle_bool net_premium (k1 - k0)
    | _, _ => false
    end
  else if strategy =? "Iron Butterfly" then
    match strike_prices, premiums with
    | [k0; k1; k2; k3], [p0; p1; p2; p3] =>
        let net_credit := (p1 + p2) - (p0 + p3) in
        Qeq_bool k1 k2
        && Qle_bool 0 net_credit
        && Qle_bool net_credit (k1 - k0) && Qle_bool net_credit (k3 - k2)
    | _, _ => false
    end
  else false.


(** ** Basic facts *)

Lemma index_raise {A : Type} (xs : list A) (i : nat) (e : exn) :
  index xs i = Raise e -> e = IndexError.
Proof.
  unfold index. destruct (nth_error xs i); intros H; inversion H; reflexivity.
Qed.

Lemma index_in_range {A : Type} (xs : list A) (i : nat) :
  (i < length xs)%nat -> exists x, index xs i = Ok x.
Proof.
  intros Hlt. unfold index.
  destruct (nth_error xs i) eqn:E.
  - eauto.
  - apply nth_error_None in E. lia.
Qed.

Lemma index_skipn {A : Type} (xs : list A) (i : nat) :
  index xs i = match skipn i xs with x :: _ => Ok x | [] => Raise IndexError end.
Proof.
  revert xs. induction i as [|i IH]; intros [|x xs]; simpl; try reflexivity.
  apply IH.
Qed.

Lemma skipn_succ_tl {A : Type} (xs : list A) (i : nat) :
  skipn (S i) xs = tl (skipn i xs).
Proof.
  revert xs. induction i as [|i IH]; intros [|x xs]; try reflexivity.
  change (skipn (S (S i)) (x :: xs)) with (skipn (S i) xs).
  rewrite IH. reflexivity.
Qed.

Lemma arr_add_map (f g : Q -> Q) (l : list Q) :
  arr_add (map f l) (map g l) = map (fun x => f x + g x) l.
Proof.
  induction l as [|x l IH]; simpl; [reflexivity | now rewrite IH].
Qed.

Lemma curve_eq_map (f g : Q -> Q) (l : list Q) :
  (forall x, f x == g x) -> curve_eq (map f l) (map g l).
Proof.
  intros Hfg. induction l as [|x l IH]; simpl; constructor; auto.
Qed.

Lemma curve_eq_trans (a b c : list Q) :
  curve_eq a b -> curve_eq b c -> curve_eq a c.
Proof.
  intros Hab. revert c. induction Hab as [|x y a b Hxy Hab IH]; intros c Hbc.
  - inversion Hbc. constructor.
  - inversion Hbc as [|y' z b' c' Hyz Hbc']; subst.
    constructor; [now rewrite Hxy | now apply IH].
Qed.

(** Case analysis on every [Qmax] and [Qmin] of the goal. *)
Ltac minmax_cases :=
  repeat match goal with
  | |- context [Qmax ?a ?b] =>
      let H := fresh "Hmax" in
      let m := fresh "m" in
      pose proof (Q.max_spec a b) as H; set (m := Qmax a b) in *; clearbody m;
      destruct H as [[? ?]|[? ?]]
  | |- context [Qmin ?a ?b] =>
      let H := fresh "Hmin" in
      let m := fresh "m" in
      pose proof (Q.min_spec a b) as H; set (m := Qmin a b) in *; clearbody m;
      destruct H as [[? ?]|[? ?]]
  end.

(** From [str_in s names = true] to one goal per name. *)
Ltac str_cases H :=
  unfold str_in in H; simpl existsb in H;
  repeat (apply orb_prop in H; destruct H as [H|H]);
  [ apply String.eqb_eq in H; subst .. | discriminate H ].

(** ** The loop over the legs *)

Section LegLoop.

Variables (stock_prices premiums : list Q) (positions : list string).

Lemma leg_loop_ok (strike_prices : list Q) :
  forall (i : nat) (payoff : list Q),
    (i + length strike_prices <= length premiums)%nat ->
    (i + length strike_prices <= length positions)%nat ->
    exists c, leg_loop stock_prices premiums positions i strike_prices payoff = Ok c.
Proof.
  induction strike_prices as [|k ks IH]; intros i payoff Hp Hpos; simpl in *.
  - eauto.
  - destruct (index_in_range positions i) as [pos Epos]; [lia|].
    destruct (index_in_range premiums i) as [p Ep]; [lia|].
    unfold leg_step. rewrite Epos. simpl. rewrite Ep. simpl.
    destruct (pos =? "Call"); [|destruct (pos =? "Put")]; simpl;
      apply IH; lia.
Qed.

Lemma leg_loop_raise (strike_prices : list Q) :
  forall (i : nat) (payoff : list Q) (e : exn),
    leg_loop stock_prices premiums positions i strike_prices payoff = Raise e ->
    e = IndexError.
Proof.
  induction strike_prices as [|k ks IH]; intros i payoff e; simpl.
  - discriminate.
  - unfold leg_step.
    destruct (index positions i) as [pos|e1] eqn:Epos; simpl.
    2:{ intros H; inversion H; subst. eapply index_raise; eauto. }
    destruct (index premiums i) as [p|e2] eqn:Ep; simpl.
    + destruct (pos =? "Call"); [|destruct (pos =? "Put")]; simpl; apply IH.
    + apply index_raise in Ep. subst e2.
      destruct (pos =? "Call"); [|destruct (pos =? "Put")]; simpl;
        try (intros H; inversion H; reflexivity); apply IH.
Qed.

Lemma leg_loop_sum (strike_prices : list Q) :
  forall (i : nat) (f : Q -> Q),
    (i + length strike_prices <= length premiums)%nat ->
    (i + length strike_prices <= length positions)%nat ->
    exists c,
      leg_loop stock_prices premiums positions i strike_prices (map f stock_prices) = Ok c /\
      curve_eq c
        (map (fun S => f S + long_legs_payoff S strike_prices
                               (skipn i premiums) (skipn i positions))
             stock_prices).
Proof.
  induction strike_prices as [|k ks IH]; intros i f Hp Hpos; simpl in *.
  - exists (map f stock_prices). split; [reflexivity|].
    apply curve_eq_map. intros x. lra.
  - unfold leg_step. rewrite !index_skipn.
    pose proof (IH (S i)) as IH'.
    rewrite (skipn_succ_tl premiums), (skipn_succ_tl positions) in IH'.
    assert (Hlp : (length (skipn i premiums) = length premiums - i)%nat)
      by apply length_skipn.
    assert (Hlpos : (length (skipn i positions) = length positions - i)%nat)
      by apply length_skipn.
    destruct (skipn i premiums) as [|p ps]; [simpl in Hlp; lia|].
    destruct (skipn i positions) as [|pos poss]; [simpl in Hlpos; lia|].
    simpl tl in IH'. simpl bind. unfold long_leg_payoff.
    destruct (pos =? "Call"); [|destruct (pos =? "Put")]; simpl bind;
      rewrite ?arr_add_map.
    + destruct (IH' (fun x => f x + (Qmax (x - k) 0 - p))) as (c & Ec & Hc);
        [lia|lia|].
      exists c. split; [exact Ec|].
      eapply curve_eq_trans; [exact Hc|].
      apply curve_eq_map. intros x. simpl. lra.
    + destruct (IH' (fun x => f x + (Qmax (k - x) 0 - p))) as (c & Ec & Hc);
        [lia|lia|].
      exists c. split; [exact Ec|].
      eapply curve_eq_trans; [exact Hc|].
      apply curve_eq_map. intros x. simpl. lra.
    + destruct (IH' f) as (c & Ec & Hc); [lia|lia|].
      exists c. split; [exact Ec|].
      eapply curve_eq_trans; [exact Hc|].
      apply curve_eq_map. intros x. simpl. lra.
Qed.

Lemma leg_loop_no_kind (strike_prices : list Q) :
  (forall pos, In pos positions -> (pos =? "Call") = false /\ (pos =? "Put") = false) ->
  forall (i : nat) (payoff : list Q),
    (i + length strike_prices <= length positions)%nat ->
    leg_loop stock_prices premiums positions i strike_prices payoff = Ok payoff.
Proof.
  intros Hkind.
  induction strike_prices as [|k ks IH]; intros i payoff Hpos; simpl in *.
  - reflexivity.
  - unfold leg_step, index.
    destruct (nth_error positions i) as [pos|] eqn:E.
    + destruct (Hkind pos) as [Hc Hp]; [eapply nth_error_In; eauto|].
      simpl bind. rewrite Hc, Hp. simpl bind. apply IH. lia.
    + apply nth_error_None in E. lia.
Qed.

End LegLoop.

(** ** The leg-count guard and the branch chain *)

(** Resolve the tests of an [if] chain one after the other. *)
Ltac split_tests :=
  repeat match goal with
  | |- context [if ?b then _ else _] =>
      lazymatch b with
      | true => fail
      | false => fail
      | _ => destruct b eqn:?; cbv iota
      end
  end.

(** Run through the subscripts of a branch: in range, or [IndexError]. *)
Ltac step_index :=
  repeat match goal with
  | |- context [index ?xs ?i] =>
      let E := fresh "Eidx" in
      destruct (index xs i) eqn:E; simpl bind;
      [ | apply index_raise in E; subst ]
  end.

Lemma strategy_branch_raise (strategy : string) (stock_prices strike_prices premiums : list Q)
    (avg_stock_price : option Q) (payoff : list Q) (e : exn) :
  strategy_branch strategy stock_prices strike_prices premiums avg_stock_price payoff
  = Raise e ->
  e = IndexError.
Proof.
  unfold strategy_branch, and_is_not_None.
  destruct avg_stock_price as [avg|]; split_tests; step_index;
    intros H; inversion H; reflexivity.
Qed.

Lemma strategy_branch_overwrites (strategy : string)
    (stock_prices strike_prices premiums : list Q) (avg_stock_price : option Q)
    (payoff1 payoff2 : list Q) :
  dedicated_branch strategy avg_stock_price = true ->
  strategy_branch strategy stock_prices strike_prices premiums avg_stock_price payoff1
  = strategy_branch strategy stock_prices strike_prices premiums avg_stock_price payoff2.
Proof.
  unfold dedicated_branch. intros H.
  apply orb_prop in H. destruct H as [H|H].
  - str_cases H; reflexivity.
  - apply andb_prop in H. destruct H as [H Havg].
    destruct avg_stock_price as [avg|]; [|discriminate Havg].
    str_cases H; reflexivity.
Qed.

Lemma check_leg_count_raise (strategy : string) (strike_prices : list Q) (e : exn) :
  check_leg_count strategy strike_prices = Raise e ->
  (str_in strategy ["Iron Condor"; "Iron Butterfly"] = true /\
   (length strike_prices < 4)%nat /\
   e = ValueError (strategy ++ " requires 4 strike prices and 4 premiums."))
  \/
  (str_in strategy ["Bull Put Spread"; "Bear Call Spread"; "Collar";
                    "Long Straddle"; "Short Straddle"; "Long Strangle";
                    "Short Strangle"] = true /\
   (length strike_prices < 2)%nat /\
   e = ValueError (strategy ++ " requires 2 strike prices and 2 premiums.")).
Proof.
  unfold check_leg_count.
  destruct (str_in strategy ["Iron Condor"; "Iron Butterfly"]
            && (length strike_prices <? 4)%nat) eqn:E4.
  { apply andb_prop in E4. destruct E4 as [Hs Hl]. apply Nat.ltb_lt in Hl.
    intros H; inversion H. left. auto. }
  destruct (str_in strategy ["Bull Put Spread"; "Bear Call Spread"; "Collar"]
            && (length strike_prices <? 2)%nat) eqn:E2.
  { apply andb_prop in E2. destruct E2 as [Hs Hl]. apply Nat.ltb_lt in Hl.
    intros H; inversion H. right. repeat split; auto.
    str_cases Hs; reflexivity. }
  destruct (str_in strategy ["Long Straddle"; "Short Straddle"; "Long Strangle";
                             "Short Strangle"]
            && (length strike_prices <? 2)%nat) eqn:E2'.
  { apply andb_prop in E2'. destruct E2' as [Hs Hl]. apply Nat.ltb_lt in Hl.
    intros H; inversion H. right. repeat split; auto.
    str_cases Hs; reflexivity. }
  discriminate.
Qed.

Lemma check_leg_count_four (strategy : string) (strike_prices : list Q) :
  str_in strategy ["Iron Condor"; "Iron Butterfly"] = true ->
  (length strike_prices < 4)%nat ->
  check_leg_count strategy strike_prices
  = Raise (ValueError (strategy ++ " requires 4 strike prices and 4 premiums.")).
Proof.
  intros Hs Hl. unfold check_leg_count.
  apply Nat.ltb_lt in Hl. rewrite Hs, Hl. reflexivity.
Qed.

Lemma check_leg_count_two (strategy : string) (strike_prices : list Q) :
  str_in strategy ["Bull Put Spread"; "Bear Call Spread"; "Collar";
                   "Long Straddle"; "Short Straddle"; "Long Strangle";
                   "Short Strangle"] = true ->
  (length strike_prices < 2)%nat ->
  check_leg_count strategy strike_prices
  = Raise (ValueError (strategy ++ " requires 2 strike prices and 2 premiums.")).
Proof.
  intros Hs Hl. unfold check_leg_count.
  apply Nat.ltb_lt in Hl. rewrite Hl.
  str_cases Hs; reflexivity.
Qed.

(** With enough premiums and leg kinds for the strikes, the loop cannot
    fail, and a dedicated branch discards what it accumulated. *)
Lemma calculate_payoff_dedicated (strategy : string)
    (stock_prices strike_prices premiums : list Q) (positions : list string)
    (avg_stock_price : option Q) :
  dedicated_branch strategy avg_stock_price = true ->
  (length strike_prices <= length premiums)%nat ->
  (length strike_prices <= length positions)%nat ->
  calculate_payoff strategy stock_prices strike_prices premiums positions avg_stock_price
  = (_ <- check_leg_count strategy strike_prices ;;
     strategy_branch strategy stock_prices strike_prices premiums avg_stock_price []).
Proof.
  intros Hd Hp Hpos. unfold calculate_payoff.
  destruct (check_leg_count strategy strike_prices) as [[]|e]; simpl; [|reflexivity].
  destruct (leg_loop_ok stock_prices premiums positions strike_prices 0
              (np_zeros_like stock_prices)) as [c Ec]; [simpl; lia..|].
  rewrite Ec. simpl. now apply strategy_branch_overwrites.
Qed.

(** From [str_in s names = false] to the failure of every test on [s]. *)
Ltac str_not_in H :=
  unfold str_in in H; simpl existsb in H;
  repeat (apply orb_false_elim in H; let E := fresh "Ene" in destruct H as [E H]);
  clear H.

Ltac rewrite_tests :=
  repeat match goal with
  | E : (_ =? _)%string = false |- _ => rewrite ?E; clear E
  end.

Lemma strategy_branch_fallthrough (strategy : string)
    (stock_prices strike_prices premiums : list Q) (avg_stock_price : option Q)
    (payoff : list Q) :
  dedicated_branch strategy avg_stock_price = false ->
  strategy_branch strategy stock_prices strike_prices premiums avg_stock_price payoff
  = Ok payoff.
Proof.
  unfold dedicated_branch. intros H.
  apply orb_false_elim in H. destruct H as [Hopt Hstock].
  unfold option_only_strategies in Hopt. str_not_in Hopt.
  unfold strategy_branch, and_is_not_None.
  destruct avg_stock_price as [avg|].
  - rewrite andb_true_r in Hstock.
    unfold stock_linked_strategies in Hstock. str_not_in Hstock.
    rewrite_tests. reflexivity.
  - rewrite_tests.
    destruct (strategy =? "Covered Call"), (strategy =? "Protective Put"),
      (strategy =? "Collar"); reflexivity.
Qed.

(** When no branch is taken, the result is what the loop accumulated:
    every leg as a long position of its kind. *)
Lemma calculate_payoff_fallthrough (strategy : string)
    (stock_prices strike_prices premiums : list Q) (positions : list string)
    (avg_stock_price : option Q) :
  dedicated_branch strategy avg_stock_price = false ->
  check_leg_count strategy strike_prices = Ok tt ->
  (length strike_prices <= length premiums)%nat ->
  (length strike_prices <= length positions)%nat ->
  exists c,
    calculate_payoff strategy stock_prices strike_prices premiums positions
      avg_stock_price = Ok c /\
    curve_eq c
      (map (fun S => long_legs_payoff S strike_prices premiums positions) stock_prices).
Proof.
  intros Hd Hc Hp Hpos. unfold calculate_payoff. rewrite Hc. simpl bind.
  destruct (leg_loop_sum stock_prices premiums positions strike_prices 0 (fun _ => 0))
    as (c & Ec & Hcurve); [simpl; lia..|].
  unfold np_zeros_like. rewrite Ec. simpl bind.
  rewrite strategy_branch_fallthrough by exact Hd.
  exists c. split; [reflexivity|].
  eapply curve_eq_trans; [exact Hcurve|].
  apply curve_eq_map. intros x. simpl skipn. lra.
Qed.

Lemma check_leg_count_unknown (strategy : string) (strike_prices : list Q) :
  str_in strategy STRATEGIES = false ->
  check_leg_count strategy strike_prices = Ok tt.
Proof.
  intros H. unfold STRATEGIES in H. str_not_in H.
  unfold check_leg_count, str_in. simpl existsb.
  rewrite_tests. reflexivity.
Qed.

Lemma dedicated_branch_unknown (strategy : string) (avg_stock_price : option Q) :
  str_in strategy STRATEGIES = false ->
  dedicated_branch strategy avg_stock_price = false.
Proof.
  intros H. unfold STRATEGIES in H. str_not_in H.
  unfold dedicated_branch, option_only_strategies, stock_linked_strategies, str_in.
  simpl existsb. rewrite_tests. reflexivity.
Qed.

(** ** Leg-count guard (C2) *)

(** C2, as stated, fails: a call whose arrays exceed the leg count of
    its strategy is not rejected.  Long Call with two legs returns the
    sum of two long calls, and Iron Condor with five strikes returns the
    Iron Condor curve of the first four. *)
Lemma leg_count_not_exact :
  calculate_payoff "Long Call" [120] [100; 110] [5; 3] ["Call"; "Call"] None
  = Ok [22] /\
  calculate_payoff "Iron Condor" [100] [110; 115; 90; 85; 80] [2; 1; 2; 1; 1]
    ["Call"; "Call"; "Put"; "Put"; "Put"] None
  = Ok [2].
Proof. split; reflexivity. Qed.

(** C2, amended: [calculate_payoff] raises a [ValueError] exactly when
    the strategy is Iron Condor or Iron Butterfly with fewer than 4
    strikes, or one of Bull Put Spread, Bear Call Spread, Collar and the
    straddle and strangle variants with fewer than 2 strikes; the
    message names the strategy and the expected count.  In particular
    Iron Condor with 2 strikes is rejected, before anything is computed
    (whatever the premiums and leg kinds). *)
Theorem leg_count_guard :
  (forall strategy stock_prices strike_prices premiums positions avg_stock_price msg,
      calculate_payoff strategy stock_prices strike_prices premiums positions
        avg_stock_price = Raise (ValueError msg)
      <->
      (str_in strategy ["Iron Condor"; "Iron Butterfly"] = true /\
       (length strike_prices < 4)%nat /\
       msg = strategy ++ " requires 4 strike prices and 4 premiums.")
      \/
      (str_in strategy ["Bull Put Spread"; "Bear Call Spread"; "Collar";
                        "Long Straddle"; "Short Straddle"; "Long Strangle";
                        "Short Strangle"] = true /\
       (length strike_prices < 2)%nat /\
       msg = strategy ++ " requires 2 strike prices and 2 premiums."))
  /\
  (forall stock_prices k0 k1 premiums positions avg_stock_price,
      calculate_payoff "Iron Condor" stock_prices [k0; k1] premiums positions
        avg_stock_price
      = Raise (ValueError "Iron Condor requires 4 strike prices and 4 premiums.")).
Proof.
  split; [|reflexivity].
  intros strategy stock_prices strike_prices premiums positions avg_stock_price msg.
  unfold calculate_payoff. split.
  - destruct (check_leg_count strategy strike_prices) as [[]|e] eqn:Ec; simpl bind.
    + destruct (leg_loop _ _ _ _ _ _) as [c|e] eqn:El; simpl bind.
      * intros H. apply strategy_branch_raise in H. discriminate H.
      * intros H. inversion H; subst. apply leg_loop_raise in El. discriminate El.
    + intros H. inversion H; subst.
      destruct (check_leg_count_raise _ _ _ Ec) as [(Hs & Hl & He)|(Hs & Hl & He)];
        inversion He; auto.
  - intros [(Hs & Hl & ->)|(Hs & Hl & ->)].
    + rewrite check_leg_count_four by assumption. reflexivity.
    + rewrite check_leg_count_two by assumption. reflexivity.
Qed.

(** ** Unknown strategy names (C3) *)

(** C3, as stated, fails: for a name outside the catalog the loop over
    the legs still runs, and its sum is returned. *)
Lemma unknown_strategy_not_zero :
  str_in "Calendar Spread" STRATEGIES = false /\
  calculate_payoff "Calendar Spread" [120] [100] [5] ["Call"] None = Ok [15] /\
  ~ curve_eq [15] (np_zeros_like [120]).
Proof.
  split; [reflexivity|]. split; [reflexivity|].
  intros H. inversion H as [|x y l l' Hxy Hl]; subst. discriminate Hxy.
Qed.

(** C3, amended: for a strategy name outside the catalog, and premiums
    and leg kinds at least as many as the strikes, [calculate_payoff]
    raises no error and returns the sum of the legs, each taken as a
    long call or long put according to its kind; the curve is the zero
    curve when no leg kind is "Call" or "Put" (in particular when there
    is no leg). *)
Theorem unknown_strategy_fallback
    (strategy : string) (stock_prices strike_prices premiums : list Q)
    (positions : list string) (avg_stock_price : option Q) :
  str_in strategy STRATEGIES = false ->
  (length strike_prices <= length positions)%nat ->
  ((length strike_prices <= length premiums)%nat ->
   exists c,
     calculate_payoff strategy stock_prices strike_prices premiums positions
       avg_stock_price = Ok c /\
     curve_eq c
       (map (fun S => long_legs_payoff S strike_prices premiums positions)
            stock_prices))
  /\
  ((forall pos, In pos positions -> (pos =? "Call") = false /\ (pos =? "Put") = false) ->
   calculate_payoff strategy stock_prices strike_prices premiums positions
     avg_stock_price = Ok (np_zeros_like stock_prices)).
Proof.
  intros Hs Hpos. split.
  - intros Hp. apply calculate_payoff_fallthrough; auto.
    + now apply dedicated_branch_unknown.
    + now apply check_leg_count_unknown.
  - intros Hkind. unfold calculate_payoff.
    rewrite check_leg_count_unknown by exact Hs. simpl bind.
    rewrite leg_loop_no_kind by (simpl; auto). simpl bind.
    apply strategy_branch_fallthrough. now apply dedicated_branch_unknown.
Qed.

Lemma unknown_strategy_fallback_witness :
  (exists c,
     calculate_payoff "Calendar Spread" [120] [100] [5] ["Call"] None = Ok c /\
     curve_eq c (map (fun S => long_legs_payoff S [100] [5] ["Call"]) [120]))
  /\
  calculate_payoff "Calendar Spread" [90; 120] [100] [5] ["Stock"] None
  = Ok (np_zeros_like [90; 120]).
Proof.
  split.
  - apply (unknown_strategy_fallback "Calendar Spread" [120] [100] [5] ["Call"] None);
      [reflexivity | simpl; lia | simpl; lia].
  - apply (unknown_strategy_fallback "Calendar Spread" [90; 120] [100] [5] ["Stock"] None);
      [reflexivity | simpl; lia |].
    intros pos [<-|[]]. split; reflexivity.
Defined.

(** ** Iron Condor scenario (C4) *)

(** C4: with strikes [110, 115, 90, 85] and premiums [2, 1, 2, 1] the
    break-even prices of Iron Condor are exactly [88, 112], and the
    payoff at underlying price 100 is 2, whatever the four leg kinds. *)
Theorem iron_condor_scenario (positions : list string) :
  length positions = 4%nat ->
  calculate_break_even "Iron Condor" [110; 115; 90; 85] [2; 1; 2; 1] None
  = Ok [Price 88; Price 112] /\
  calculate_payoff "Iron Condor" [100] [110; 115; 90; 85] [2; 1; 2; 1] positions None
  = Ok [2].
Proof.
  intros Hlen. split; [reflexivity|].
  rewrite calculate_payoff_dedicated; [reflexivity | reflexivity | simpl; lia..].
Qed.

Lemma iron_condor_scenario_witness :
  calculate_break_even "Iron Condor" [110; 115; 90; 85] [2; 1; 2; 1] None
  = Ok [Price 88; Price 112] /\
  calculate_payoff "Iron Condor" [100] [110; 115; 90; 85] [2; 1; 2; 1]
    ["Call"; "Call"; "Put"; "Put"] None
  = Ok [2].
Proof.
  apply (iron_condor_scenario ["Call"; "Call"; "Put"; "Put"]). reflexivity.
Defined.

(** ** Missing average stock price in the evaluator (C6) *)

(** C6, as stated, fails twice.  Covered Call without an average price
    returns the payoff of a long call, the opposite of the short call
    the strategy holds; and Collar with a single strike fails. *)
Lemma degraded_mode_not_directed :
  calculate_payoff "Covered Call" [120] [100] [5] ["Call"] None = Ok [15] /\
  ~ curve_eq [15] (map (fun S => directed_option_legs "Covered Call" S [100] [5]) [120]) /\
  calculate_payoff "Collar" [120] [95] [3] ["Put"] None
  = Raise (ValueError "Collar requires 2 strike prices and 2 premiums.").
Proof.
  split; [reflexivity|]. split; [|reflexivity].
  intros H. inversion H as [|x y l l' Hxy Hl]; subst. discriminate Hxy.
Qed.

(** C6, amended: for Covered Call, Protective Put and Collar without an
    average stock price (Collar with at least 2 strikes), and premiums
    and leg kinds at least as many as the strikes, the call does not
    fail; the stock term is omitted and the returned curve is the sum of
    the legs each taken as a long position of the kind given in
    [positions]: intrinsic value minus premium. *)
Theorem degraded_mode_long_legs
    (strategy : string) (stock_prices strike_prices premiums : list Q)
    (positions : list string) :
  str_in strategy stock_linked_strategies = true ->
  (strategy = "Collar" -> (2 <= length strike_prices)%nat) ->
  (length strike_prices <= length premiums)%nat ->
  (length strike_prices <= length positions)%nat ->
  exists c,
    calculate_payoff strategy stock_prices strike_prices premiums positions None
    = Ok c /\
    curve_eq c
      (map (fun S => long_legs_payoff S strike_prices premiums positions) stock_prices).
Proof.
  intros Hs Hcollar Hp Hpos.
  apply calculate_payoff_fallthrough; auto.
  - unfold stock_linked_strategies in Hs. str_cases Hs; reflexivity.
  - unfold stock_linked_strategies in Hs. str_cases Hs; try reflexivity.
    specialize (Hcollar eq_refl). unfold check_leg_count.
    destruct (Nat.ltb_spec (length strike_prices) 2) as [Hlt|Hge]; [lia|].
    destruct (length strike_prices <? 4)%nat; reflexivity.
Qed.

Lemma degraded_mode_long_legs_witness :
  exists c,
    calculate_payoff "Collar" [90; 100; 110] [95; 105] [3; 2] ["Put"; "Call"] None
    = Ok c /\
    curve_eq c
      (map (fun S => long_legs_payoff S [95; 105] [3; 2] ["Put"; "Call"]) [90; 100; 110]).
Proof.
  apply (degraded_mode_long_legs "Collar" [90; 100; 110] [95; 105] [3; 2] ["Put"; "Call"]);
    [reflexivity | intros _; simpl; lia | simpl; lia | simpl; lia].
Defined.

(** ** Markers returned by the solver (C7) *)

(** C7: [calculate_break_even] does not raise for a missing average
    stock price or an unknown strategy name.  For Covered Call,
    Protective Put and Collar without an average price it returns the
    marker "Avg Stock Price Required", and for every name outside the
    catalog the marker "N/A"; a marker is not a price. *)
Theorem break_even_markers :
  (forall strategy strike_prices premiums,
      str_in strategy stock_linked_strategies = true ->
      calculate_break_even strategy strike_prices premiums None
      = Ok [Marker "Avg Stock Price Required"])
  /\
  (forall strategy strike_prices premiums avg_stock_price,
      str_in strategy STRATEGIES = false ->
      calculate_break_even strategy strike_prices premiums avg_stock_price
      = Ok [Marker "N/A"])
  /\
  (forall s q, Marker s <> Price q).
Proof.
  split; [|split].
  - intros strategy strike_prices premiums Hs.
    unfold stock_linked_strategies in Hs. str_cases Hs; reflexivity.
  - intros strategy strike_prices premiums avg_stock_price Hs.
    unfold STRATEGIES in Hs. str_not_in Hs.
    unfold calculate_break_even. rewrite_tests. reflexivity.
  - discriminate.
Qed.

Lemma break_even_markers_witness :
  calculate_break_even "Collar" [95; 105] [3; 2] None
  = Ok [Marker "Avg Stock Price Required"] /\
  calculate_break_even "Calendar Spread" [] [] (Some 100)
  = Ok [Marker "N/A"].
Proof.
  split.
  - apply (proj1 break_even_markers). reflexivity.
  - apply (proj1 (proj2 break_even_markers)). reflexivity.
Defined.

(** ** The leg kinds are ignored by the dedicated branches (C10) *)

(** C10: for the nine option-only strategies, and for Covered Call,
    Protective Put and Collar with an average stock price, the curve
    returned by [calculate_payoff] does not depend on [positions]:
    whenever two calls that differ only in [positions] both return, the
    curves are equal; and when both position lists (and the premiums)
    are at least as long as the strikes, the two calls have the same
    outcome. *)
Theorem positions_ignored
    (strategy : string) (stock_prices strike_prices premiums : list Q)
    (avg_stock_price : option Q) (positions1 positions2 : list string) :
  dedicated_branch strategy avg_stock_price = true ->
  (forall c1 c2,
      calculate_payoff strategy stock_prices strike_prices premiums positions1
        avg_stock_price = Ok c1 ->
      calculate_payoff strategy stock_prices strike_prices premiums positions2
        avg_stock_price = Ok c2 ->
      c1 = c2)
  /\
  ((length strike_prices <= length premiums)%nat ->
   (length strike_prices <= length positions1)%nat ->
   (length strike_prices <= length positions2)%nat ->
   calculate_payoff strategy stock_prices strike_prices premiums positions1
     avg_stock_price
   = calculate_payoff strategy stock_prices strike_prices premiums positions2
       avg_stock_price).
Proof.
  intros Hd. split.
  - intros c1 c2. unfold calculate_payoff.
    destruct (check_leg_count strategy strike_prices) as [[]|e]; simpl bind;
      [|discriminate].
    destruct (leg_loop _ _ positions1 _ _ _) as [pay1|e1]; simpl bind; [|discriminate].
    destruct (leg_loop _ _ positions2 _ _ _) as [pay2|e2]; simpl bind; [|discriminate].
    rewrite (strategy_branch_overwrites strategy _ _ _ _ pay1 pay2 Hd).
    intros H1 H2. rewrite H1 in H2. now inversion H2.
  - intros Hp Hpos1 Hpos2.
    rewrite !calculate_payoff_dedicated by assumption. reflexivity.
Qed.

Lemma positions_ignored_witness :
  calculate_payoff "Iron Condor" [80; 100; 120] [110; 115; 90; 85] [2; 1; 2; 1]
    ["Call"; "Call"; "Put"; "Put"] None
  = calculate_payoff "Iron Condor" [80; 100; 120] [110; 115; 90; 85] [2; 1; 2; 1]
      ["Put"; "Stock"; "Call"; "Call"; "Put"] None.
Proof.
  apply (positions_ignored "Iron Condor" [80; 100; 120] [110; 115; 90; 85] [2; 1; 2; 1]
           None ["Call"; "Call"; "Put"; "Put"] ["Put"; "Stock"; "Call"; "Call"; "Put"]);
    [reflexivity | simpl; lia | simpl; lia | simpl; lia].
Defined.

(** ** Long and short variants (C8) *)




(** ** Tails of the single legs (C9) *)

(** C9: the Long Call payoff is non-decreasing in the underlying price
    above the strike and equals minus the premium at and below the
    strike; the Long Put payoff is non-increasing below the strike and
    equals minus the premium at and above it. *)
Theorem single_leg_tails (K p : Q) (avg_stock_price : option Q) :
  (forall S1 S2, K <= S1 -> S1 <= S2 ->
     exists y1 y2,
       calculate_payoff "Long Call" [S1; S2] [K] [p] ["Call"] avg_stock_price
       = Ok [y1; y2] /\ y1 <= y2)
  /\
  (forall S, S <= K ->
     exists y,
       calculate_payoff "Long Call" [S] [K] [p] ["Call"] avg_stock_price = Ok [y] /\
       y == - p)
  /\
  (forall S1 S2, S1 <= S2 -> S2 <= K ->
     exists y1 y2,
       calculate_payoff "Long Put" [S1; S2] [K] [p] ["Put"] avg_stock_price
       = Ok [y1; y2] /\ y2 <= y1)
  /\
  (forall S, K <= S ->
     exists y,
       calculate_payoff "Long Put" [S] [K] [p] ["Put"] avg_stock_price = Ok [y] /\
       y == - p).
Proof.
  split; [|split; [|split]]; intros;
    destruct avg_stock_price; repeat eexists; try reflexivity;
    cbv beta; minmax_cases; lra.
Qed.

Lemma single_leg_tails_witness :
  (exists y1 y2,
      calculate_payoff "Long Call" [105; 120] [100] [5] ["Call"] None = Ok [y1; y2] /\
      y1 <= y2)
  /\
  (exists y,
      calculate_payoff "Long Call" [90] [100] [5] ["Call"] None = Ok [y] /\ y == - (5))
  /\
  (exists y1 y2,
      calculate_payoff "Long Put" [80; 95] [100] [5] ["Put"] None = Ok [y1; y2] /\
      y2 <= y1)
  /\
  (exists y,
      calculate_payoff "Long Put" [110] [100] [5] ["Put"] None = Ok [y] /\ y == - (5)).
Proof.
  pose proof (single_leg_tails 100 5 None) as (Hcall_up & Hcall_flat & Hput_down & Hput_flat).
  split; [|split; [|split]].
  - apply Hcall_up; unfold Qle; simpl; lia.
  - apply Hcall_flat; unfold Qle; simpl; lia.
  - apply Hput_down; unfold Qle; simpl; lia.
  - apply Hput_flat; unfold Qle; simpl; lia.
Defined.

(** ** Break-even prices are roots of the payoff (C1) *)

(** Bring a configuration hypothesis to the shape of its lists and to
    inequalities on rationals. *)
Ltac open_config H :=
  cbv zeta in H;
  repeat match type of H with
  | context [match ?l with nil => _ | cons _ _ => _ end] =>
      is_var l; destruct l; try discriminate H
  end;
  repeat (let H' := fresh "Hc" in apply andb_prop in H; destruct H as [H H']);
  repeat match goal with
  | Hb : Qle_bool _ _ = true |- _ => apply Qle_bool_iff in Hb
  | Hb : Qeq_bool _ _ = true |- _ => apply Qeq_bool_iff in Hb
  end.

(** Take the first test of a chain on the strategy name: one goal per
    name when it succeeds, the rest of the chain when it fails. *)
Ltac first_test H :=
  match type of H with
  | (if ?b then _ else _) = true =>
      let E := fresh "Etest" in
      destruct b eqn:E;
      [ first [ apply String.eqb_eq in E; subst | str_cases E ] | clear E ]
  end.

(** C1, as stated, fails.  For Covered Call with average price 100,
    strike 110 and premium 5 the solver returns 105, where the payoff is
    10; for a Butterfly Spread with wings of different widths the upper
    price returned is not a root either. *)
Lemma break_even_not_root :
  (calculate_break_even "Covered Call" [110] [5] (Some 100) = Ok [Price 105] /\
   calculate_payoff "Covered Call" [105] [110] [5] ["Call"] (Some 100) = Ok [10] /\
   ~ zero_within_tolerance 10)
  /\
  (calculate_break_even "Butterfly Spread" [90; 100; 120] [12; 5; 1] None
   = Ok [Price 93; Price 117] /\
   calculate_payoff "Butterfly Spread" [117] [90; 100; 120] [12; 5; 1]
     ["Call"; "Call"; "Call"] None = Ok [-10] /\
   ~ zero_within_tolerance (-10)).
Proof.
  split; (split; [reflexivity|]); (split; [reflexivity|]);
    intros H; vm_compute in H; apply H; reflexivity.
Qed.

(** Beyond that range the rounding of the doubles alone breaks the law:
    for a Long Call with strike 1e16 the premium 1 is absorbed, the
    solver returns the strike and the payoff there is -1; with strike
    1e11 and premium 0.3 the payoff at the returned price is about
    3.05e-6. *)
Lemma long_call_premium_absorbed :
  (Double.calculate_break_even "Long Call" [1e16] [1] None
   = Ok [Double.Price 1e16] /\
   Double.calculate_payoff "Long Call" [1e16] [1e16] [1] ["Call"] None
   = Ok [-1])%float
  /\
  (Double.calculate_break_even "Long Call" [1e11] [0.3] None
   = Ok [Double.Price 100000000000.3] /\
   Double.calculate_payoff "Long Call" [100000000000.3] [1e11] [0.3] ["Call"] None
   = Ok [3.0517578125111022e-06])%float.
Proof.
  repeat split; vm_compute; reflexivity.
Qed.

(** C1, amended: for Long Call, Long Put, Iron Condor, Bull Put Spread,
    Bear Call Spread, the straddles, the strangles, Butterfly Spread and
    Iron Butterfly, on every leg configuration accepted by
    [roots_config] whose strikes and premiums have magnitude at most
    one million, and with the leg kinds of the strategy, the solver
    returns a non-empty list of prices and the payoff at each of them is
    within the tolerance 1e-6 of zero. *)
Theorem break_even_roots
    (strategy : string) (strike_prices premiums : list Q) (avg_stock_price : option Q) :
  roots_config strategy strike_prices premiums = true ->
  bounded_legs strike_prices premiums = true ->
  exists roots,
    calculate_break_even strategy strike_prices premiums avg_stock_price = Ok roots /\
    roots <> [] /\
    Forall (fun r =>
              exists q y,
                r = Price q /\
                calculate_payoff strategy [q] strike_prices premiums
                  (leg_kinds strategy) avg_stock_price = Ok [y] /\
                zero_within_tolerance y)
           roots.
Proof.
  assert (Htol : forall y, y == 0 -> zero_within_tolerance y).
  { intros y Hy. unfold zero_within_tolerance, tolerance. rewrite Hy. discriminate. }
  intros H _. unfold roots_config in H.
  repeat (first_test H;
    [ open_config H;
      (eexists; split; [reflexivity|]); (split; [discriminate|]);
      repeat (apply Forall_cons;
              [ eexists; eexists; split; [reflexivity|]; split; [reflexivity|];
                apply Htol; cbv beta zeta; minmax_cases; lra | ]);
      apply Forall_nil
      .. | ]).
  discriminate H.
Qed.

Lemma break_even_roots_witness :
  exists roots,
    calculate_break_even "Iron Condor" [110; 115; 90; 85] [2; 1; 2; 1] None = Ok roots /\
    roots <> [] /\
    Forall (fun r =>
              exists q y,
                r = Price q /\
                calculate_payoff "Iron Condor" [q] [110; 115; 90; 85] [2; 1; 2; 1]
                  (leg_kinds "Iron Condor") None = Ok [y] /\
                zero_within_tolerance y)
           roots.
Proof.
  apply (break_even_roots "Iron Condor" [110; 115; 90; 85] [2; 1; 2; 1] None);
    reflexivity.
Defined.

(** ** Shape and order of the solver's result (C5) *)


(** For Butterfly Spread the order of the two prices can hinge on the
    last bit: with strikes 4.01, 13.06, 22.11 and premiums 7.09, 2.45,
    6.86 twice the net premium equals the distance of the outer strikes
    and the doubles come out in descending order. *)
Lemma butterfly_order_hinges_on_rounding :
  (Double.calculate_break_even "Butterfly Spread" [4.01; 13.06; 22.11]
     [7.09; 2.45; 6.86] None
   = Ok [Double.Price 13.06; Double.Price 13.059999999999999])%float
  /\
  PrimFloat.leb 13.06 13.059999999999999 = false.
Proof.
  split; vm_compute; reflexivity.
Qed.



(** * Further properties of the evaluator and the solver *)

(** ** Shape of the curve and role of the price grid *)

Lemma arr_add_length (a b : list Q) :
  length (arr_add a b) = Nat.min (length a) (length b).
Proof.
  revert b. induction a as [|x a IH]; intros [|y b]; simpl; auto.
Qed.

Lemma arr_add_app (a1 a2 b1 b2 : list Q) :
  length a1 = length b1 ->
  arr_add (a1 ++ a2)%list (b1 ++ b2)%list = (arr_add a1 b1 ++ arr_add a2 b2)%list.
Proof.
  revert b1. induction a1 as [|x a1 IH]; intros [|y b1] Hlen; simpl in *;
    try discriminate; [reflexivity|].
  f_equal. apply IH. now inversion Hlen.
Qed.

Section Grid.

Variables (premiums : list Q) (positions : list string).

Lemma leg_step_length (stock_prices : list Q) (i : nat) (k : Q) (payoff c : list Q) :
  leg_step stock_prices premiums positions i k payoff = Ok c ->
  length payoff = length stock_prices ->
  length c = length stock_prices.
Proof.
  unfold leg_step. intros H Hlen.
  destruct (index positions i) as [pos|]; simpl in H; [|discriminate].
  destruct (pos =? "Call"); [|destruct (pos =? "Put")];
    try (destruct (index premiums i) as [p|]; simpl in H; [|discriminate]);
    inversion H; subst; auto;
    rewrite arr_add_length, length_map; lia.
Qed.

Lemma leg_loop_length (stock_prices strike_prices : list Q) :
  forall (i : nat) (payoff c : list Q),
    leg_loop stock_prices premiums positions i strike_prices payoff = Ok c ->
    length payoff = length stock_prices ->
    length c = length stock_prices.
Proof.
  induction strike_prices as [|k ks IH]; intros i payoff c H Hlen; simpl in H.
  - inversion H; subst. exact Hlen.
  - destruct (leg_step _ _ _ i k payoff) as [payoff'|] eqn:E; simpl in H; [|discriminate].
    eapply IH; [exact H|]. eapply leg_step_length; eauto.
Qed.

Lemma leg_step_app (g1 g2 : list Q) (i : nat) (k : Q) (pay1 pay2 c1 c2 : list Q) :
  length pay1 = length g1 ->
  leg_step g1 premiums positions i k pay1 = Ok c1 ->
  leg_step g2 premiums positions i k pay2 = Ok c2 ->
  leg_step (g1 ++ g2)%list premiums positions i k (pay1 ++ pay2)%list
  = Ok (c1 ++ c2)%list.
Proof.
  unfold leg_step. intros Hlen H1 H2.
  destruct (index positions i) as [pos|]; simpl in *; [|discriminate].
  destruct (pos =? "Call"); [|destruct (pos =? "Put")];
    try (destruct (index premiums i) as [p|]; simpl in *; [|discriminate]);
    inversion H1; inversion H2; subst; try reflexivity;
    rewrite map_app, arr_add_app by (now rewrite length_map); reflexivity.
Qed.

Lemma leg_loop_app (g1 g2 strike_prices : list Q) :
  forall (i : nat) (pay1 pay2 c1 c2 : list Q),
    length pay1 = length g1 ->
    leg_loop g1 premiums positions i strike_prices pay1 = Ok c1 ->
    leg_loop g2 premiums positions i strike_prices pay2 = Ok c2 ->
    leg_loop (g1 ++ g2)%list premiums positions i strike_prices (pay1 ++ pay2)%list
    = Ok (c1 ++ c2)%list.
Proof.
  induction strike_prices as [|k ks IH]; intros i pay1 pay2 c1 c2 Hlen H1 H2;
    simpl in *.
  - inversion H1; inversion H2; reflexivity.
  - destruct (leg_step g1 _ _ i k pay1) as [p1|] eqn:E1; simpl in H1; [|discriminate].
    destruct (leg_step g2 _ _ i k pay2) as [p2|] eqn:E2; simpl in H2; [|discriminate].
    rewrite (leg_step_app _ _ _ _ _ _ _ _ Hlen E1 E2). simpl.
    apply IH; auto. eapply leg_step_length; eauto.
Qed.

(** Whether the loop fails is decided by the legs alone. *)
Lemma leg_loop_raise_any_grid (g g' strike_prices : list Q) :
  forall (i : nat) (pay pay' : list Q) (e : exn),
    leg_loop g premiums positions i strike_prices pay = Raise e ->
    leg_loop g' premiums positions i strike_prices pay' = Raise e.
Proof.
  induction strike_prices as [|k ks IH]; intros i pay pay' e; simpl.
  - discriminate.
  - unfold leg_step.
    destruct (index positions i) as [pos|e1]; simpl; [|auto].
    destruct (pos =? "Call"); [|destruct (pos =? "Put")];
      try (destruct (index premiums i) as [p|e2]; simpl; [|auto]);
      apply IH.
Qed.

End Grid.

Lemma strategy_branch_length (strategy : string)
    (stock_prices strike_prices premiums : list Q) (avg_stock_price : option Q)
    (payoff c : list Q) :
  strategy_branch strategy stock_prices strike_prices premiums avg_stock_price payoff
  = Ok c ->
  length payoff = length stock_prices ->
  length c = length stock_prices.
Proof.
  unfold strategy_branch, and_is_not_None.
  destruct avg_stock_price as [avg|]; split_tests; step_index;
    intros H Hlen; inversion H; subst; auto using length_map.
Qed.

Lemma strategy_branch_app (strategy : string) (g1 g2 strike_prices premiums : list Q)
    (avg_stock_price : option Q) (pay1 pay2 c1 c2 : list Q) :
  strategy_branch strategy g1 strike_prices premiums avg_stock_price pay1 = Ok c1 ->
  strategy_branch strategy g2 strike_prices premiums avg_stock_price pay2 = Ok c2 ->
  strategy_branch strategy (g1 ++ g2)%list strike_prices premiums avg_stock_price
    (pay1 ++ pay2)%list = Ok (c1 ++ c2)%list.
Proof.
  unfold strategy_branch, and_is_not_None.
  destruct avg_stock_price as [avg|]; split_tests; step_index;
    intros H1 H2; inversion H1; inversion H2; subst;
    rewrite ?map_app; reflexivity.
Qed.

Lemma strategy_branch_raise_any_grid (strategy : string)
    (g g' strike_prices premiums : list Q) (avg_stock_price : option Q)
    (pay pay' : list Q) (e : exn) :
  strategy_branch strategy g strike_prices premiums avg_stock_price pay = Raise e ->
  strategy_branch strategy g' strike_prices premiums avg_stock_price pay' = Raise e.
Proof.
  unfold strategy_branch, and_is_not_None.
  destruct avg_stock_price as [avg|]; split_tests; step_index;
    intros H; inversion H; reflexivity.
Qed.

Lemma calculate_payoff_raise_any_grid (strategy : string)
    (g g' strike_prices premiums : list Q) (positions : list string)
    (avg_stock_price : option Q) (e : exn) :
  calculate_payoff strategy g strike_prices premiums positions avg_stock_price
  = Raise e ->
  calculate_payoff strategy g' strike_prices premiums positions avg_stock_price
  = Raise e.
Proof.
  unfold calculate_payoff.
  destruct (check_leg_count strategy strike_prices) as [[]|e0]; simpl bind; [|auto].
  destruct (leg_loop g _ _ _ _ _) as [c|e1] eqn:E; simpl bind.
  - destruct (leg_loop g' _ _ _ _ _) as [c'|e1'] eqn:E'; simpl bind.
    + apply strategy_branch_raise_any_grid.
    + apply (leg_loop_raise_any_grid _ _ g' g) with (pay' := np_zeros_like g) in E'.
      rewrite E in E'. discriminate E'.
  - intros H. inversion H; subst.
    apply (leg_loop_raise_any_grid _ _ g g') with (pay' := np_zeros_like g') in E.
    rewrite E. reflexivity.
Qed.

(** X1: The curve has one value per price of the grid. *)
Theorem payoff_curve_length (strategy : string)
    (stock_prices strike_prices premiums : list Q) (positions : list string)
    (avg_stock_price : option Q) (c : list Q) :
  calculate_payoff strategy stock_prices strike_prices premiums positions
    avg_stock_price = Ok c ->
  length c = length stock_prices.
Proof.
  unfold calculate_payoff.
  destruct (check_leg_count strategy strike_prices) as [[]|e]; simpl bind;
    [|discriminate].
  destruct (leg_loop _ _ _ _ _ _) as [payoff|e] eqn:E; simpl bind; [|discriminate].
  intros H. eapply strategy_branch_length; [exact H|].
  eapply leg_loop_length; [exact E|].
  unfold np_zeros_like. apply length_map.
Qed.

Lemma payoff_curve_length_witness :
  length [15; -5; 15] = length [80; 100; 120].
Proof.
  apply (payoff_curve_length "Long Straddle" [80; 100; 120] [100; 100] [3; 2]
           ["Call"; "Put"] None).
  reflexivity.
Defined.

(** X2: The value at a price does not depend on the rest of the grid: the
    curve over two grids put end to end is the two curves put end to
    end. *)
Theorem payoff_grid_concat (strategy : string)
    (g1 g2 strike_prices premiums : list Q) (positions : list string)
    (avg_stock_price : option Q) (c1 c2 : list Q) :
  calculate_payoff strategy g1 strike_prices premiums positions avg_stock_price
  = Ok c1 ->
  calculate_payoff strategy g2 strike_prices premiums positions avg_stock_price
  = Ok c2 ->
  calculate_payoff strategy (g1 ++ g2)%list strike_prices premiums positions
    avg_stock_price = Ok (c1 ++ c2)%list.
Proof.
  unfold calculate_payoff.
  destruct (check_leg_count strategy strike_prices) as [[]|e]; simpl bind;
    [|discriminate].
  destruct (leg_loop g1 _ _ _ _ _) as [pay1|e] eqn:E1; simpl bind; [|discriminate].
  destruct (leg_loop g2 _ _ _ _ _) as [pay2|e] eqn:E2; simpl bind; [|discriminate].
  intros H1 H2.
  unfold np_zeros_like in *. rewrite map_app.
  rewrite (leg_loop_app _ _ _ _ _ _ _ _ _ _ (length_map _ _) E1 E2). simpl bind.
  now apply strategy_branch_app.
Qed.

Lemma payoff_grid_concat_witness :
  calculate_payoff "Bull Put Spread" ([80; 95] ++ [100; 120])%list [100; 90] [4; 1]
    ["Put"; "Put"] None
  = Ok ([-7; -2] ++ [3; 3])%list.
Proof.
  apply (payoff_grid_concat "Bull Put Spread" [80; 95] [100; 120] [100; 90] [4; 1]
           ["Put"; "Put"] None); reflexivity.
Defined.

(** X3: Whether a call fails, and with which exception, does not depend on
    the price grid. *)
Theorem payoff_failure_ignores_grid (strategy : string)
    (g g' strike_prices premiums : list Q) (positions : list string)
    (avg_stock_price : option Q) (e : exn) :
  calculate_payoff strategy g strike_prices premiums positions avg_stock_price
  = Raise e
  <->
  calculate_payoff strategy g' strike_prices premiums positions avg_stock_price
  = Raise e.
Proof.
  split; apply calculate_payoff_raise_any_grid.
Qed.

(** ** Tools for pointwise statements *)

Lemma Forall2_grid_map {B : Type} (R : Q -> B -> Prop) (f : Q -> B) (g : list Q) :
  (forall S, R S (f S)) -> Forall2 R g (map f g).
Proof.
  intros H. induction g as [|S g IH]; simpl; constructor; auto.
Qed.

Lemma single_leg_curves (g : list Q) (K p : Q) (avg_stock_price : option Q) :
  calculate_payoff "Long Call" g [K] [p] ["Call"] avg_stock_price
  = Ok (map (fun S => 0 + (Qmax (S - K) 0 - p)) g)
  /\
  calculate_payoff "Long Put" g [K] [p] ["Put"] avg_stock_price
  = Ok (map (fun S => 0 + (Qmax (K - S) 0 - p)) g).
Proof.
  split; unfold calculate_payoff, np_zeros_like; simpl;
    rewrite arr_add_map; destruct avg_stock_price; reflexivity.
Qed.

(** Evaluate the calls that take a dedicated branch. *)
Ltac eval_dedicated :=
  rewrite !calculate_payoff_dedicated by (reflexivity || (simpl; lia)).

(** Split a pointwise goal into linear goals over the rationals. *)
Ltac pointwise :=
  cbv beta zeta; intros; cbv beta zeta; minmax_cases;
  repeat match goal with
  | |- _ /\ _ => split
  | |- _ <-> _ => split
  | |- _ -> _ => intro
  | H : _ /\ _ |- _ => destruct H
  end;
  lra.

(** ** How the strategies compose *)

(** X7: The Long Straddle curve is the Long Call curve plus the Long Put
    curve, both at the first strike. *)
Theorem long_straddle_is_call_plus_put (g : list Q) (k0 k1 p0 p1 : Q)
    (avg_stock_price : option Q) :
  exists straddle call put,
    calculate_payoff "Long Straddle" g [k0; k1] [p0; p1] ["Call"; "Put"]
      avg_stock_price = Ok straddle /\
    calculate_payoff "Long Call" g [k0] [p0] ["Call"] avg_stock_price = Ok call /\
    calculate_payoff "Long Put" g [k0] [p1] ["Put"] avg_stock_price = Ok put /\
    curve_eq straddle (arr_add call put).
Proof.
  destruct (single_leg_curves g k0 p0 avg_stock_price) as [Hcall _].
  destruct (single_leg_curves g k0 p1 avg_stock_price) as [_ Hput].
  rewrite Hcall, Hput. eval_dedicated.
  do 3 eexists. repeat (split; [reflexivity|]).
  rewrite arr_add_map. apply curve_eq_map. pointwise.
Qed.

(** X8: Both straddle variants use the first strike for the call and for
    the put: the second strike changes neither the curve nor the
    break-even prices. *)
Theorem straddle_ignores_second_strike (strategy : string) (g : list Q)
    (k0 k1 k1' p0 p1 : Q) (pos0 pos1 : string) (avg_stock_price : option Q) :
  str_in strategy ["Long Straddle"; "Short Straddle"] = true ->
  calculate_payoff strategy g [k0; k1] [p0; p1] [pos0; pos1] avg_stock_price
  = calculate_payoff strategy g [k0; k1'] [p0; p1] [pos0; pos1] avg_stock_price
  /\
  calculate_break_even strategy [k0; k1] [p0; p1] avg_stock_price
  = calculate_break_even strategy [k0; k1'] [p0; p1] avg_stock_price.
Proof.
  intros H. str_cases H; eval_dedicated; split; reflexivity.
Qed.

Lemma straddle_ignores_second_strike_witness :
  calculate_payoff "Long Straddle" [90; 110] [100; 100] [3; 2] ["Call"; "Put"] None
  = calculate_payoff "Long Straddle" [90; 110] [100; 95] [3; 2] ["Call"; "Put"] None
  /\
  calculate_break_even "Long Straddle" [100; 100] [3; 2] None
  = calculate_break_even "Long Straddle" [100; 95] [3; 2] None.
Proof.
  apply (straddle_ignores_second_strike "Long Straddle" [90; 110] 100 100 95 3 2
           "Call" "Put" None).
  reflexivity.
Defined.

(** ** Largest gain and largest loss *)

(** Evaluate a dedicated call and reduce the goal to one price. *)
Ltac at_each_price :=
  eval_dedicated; eexists; split; [reflexivity|];
  apply Forall2_grid_map; pointwise.

(** X9: A Long Call or Long Put never loses more than the premium, and a
    Long Put with a non-negative strike gains at most strike minus
    premium at non-negative prices. *)
Theorem single_leg_max_loss (g : list Q) (K p : Q) (avg_stock_price : option Q) :
  (exists c,
      calculate_payoff "Long Call" g [K] [p] ["Call"] avg_stock_price = Ok c /\
      Forall (fun y => - p <= y) c)
  /\
  (exists c,
      calculate_payoff "Long Put" g [K] [p] ["Put"] avg_stock_price = Ok c /\
      Forall2 (fun S y => - p <= y /\ (0 <= K -> 0 <= S -> y <= K - p)) g c).
Proof.
  destruct (single_leg_curves g K p avg_stock_price) as [Hcall Hput].
  rewrite Hcall, Hput. split; eexists; (split; [reflexivity|]).
  - apply Forall_forall. intros y Hy. apply in_map_iff in Hy.
    destruct Hy as (S & <- & _). pointwise.
  - apply Forall2_grid_map. pointwise.
Qed.

(** X14: Straddles and strangles: the long variants never lose more than the
    two premiums, and lose exactly that at the strike (straddle) or
    between the strikes (strangle); the short variants never gain more
    than the two premiums. *)
Theorem straddle_strangle_bounds (g : list Q) (k0 k1 p0 p1 : Q)
    (pos0 pos1 : string) (avg_stock_price : option Q) :
  (exists c,
      calculate_payoff "Long Straddle" g [k0; k1] [p0; p1] [pos0; pos1]
        avg_stock_price = Ok c /\
      Forall2 (fun S y => - (p0 + p1) <= y /\ (S == k0 -> y == - (p0 + p1))) g c)
  /\
  (exists c,
      calculate_payoff "Short Straddle" g [k0; k1] [p0; p1] [pos0; pos1]
        avg_stock_price = Ok c /\
      Forall2 (fun S y => y <= p0 + p1 /\ (S == k0 -> y == p0 + p1)) g c)
  /\
  (exists c,
      calculate_payoff "Long Strangle" g [k0; k1] [p0; p1] [pos0; pos1]
        avg_stock_price = Ok c /\
      Forall2 (fun S y =>
                 - (p0 + p1) <= y /\ (k1 <= S -> S <= k0 -> y == - (p0 + p1)))
              g c)
  /\
  (exists c,
      calculate_payoff "Short Strangle" g [k0; k1] [p0; p1] [pos0; pos1]
        avg_stock_price = Ok c /\
      Forall2 (fun S y => y <= p0 + p1 /\ (k1 <= S -> S <= k0 -> y == p0 + p1)) g c).
Proof.
  repeat split; at_each_price.
Qed.

(** ** Failures of the solver and of the evaluator *)


(** X28: With at least four strikes and four premiums the solver returns,
    whatever the strategy name and the average price. *)
Theorem break_even_returns (strategy : string) (strike_prices premiums : list Q)
    (avg_stock_price : option Q) :
  (4 <= length strike_prices)%nat ->
  (4 <= length premiums)%nat ->
  exists roots,
    calculate_break_even strategy strike_prices premiums avg_stock_price = Ok roots.
Proof.
  intros Hk Hp.
  destruct strike_prices as [|k0 [|k1 [|k2 [|k3 ks]]]]; simpl in Hk; try lia.
  destruct premiums as [|p0 [|p1 [|p2 [|p3 ps]]]]; simpl in Hp; try lia.
  unfold calculate_break_even.
  change (length (p0 :: p1 :: p2 :: p3 :: ps) <? 2)%nat with false.
  destruct avg_stock_price as [avg|]; split_tests; eexists; reflexivity.
Qed.

Lemma break_even_returns_witness :
  exists roots,
    calculate_break_even "Iron Butterfly" [95; 100; 100; 105] [1; 3; 3; 1] None
    = Ok roots.
Proof.
  apply (break_even_returns "Iron Butterfly" [95; 100; 100; 105] [1; 3; 3; 1] None);
    simpl; lia.
Defined.

(** X29: With at least four strikes, and premiums and leg kinds at least as
    many as the strikes, the evaluator returns a curve, whatever the
    strategy name and the average price. *)
Theorem payoff_returns (strategy : string)
    (stock_prices strike_prices premiums : list Q) (positions : list string)
    (avg_stock_price : option Q) :
  (4 <= length strike_prices)%nat ->
  (length strike_prices <= length premiums)%nat ->
  (length strike_prices <= length positions)%nat ->
  exists c,
    calculate_payoff strategy stock_prices strike_prices premiums positions
      avg_stock_price = Ok c.
Proof.
  intros Hk Hp Hpos. unfold calculate_payoff.
  assert (Hcheck : check_leg_count strategy strike_prices = Ok tt).
  { unfold check_leg_count.
    destruct (Nat.ltb_spec (length strike_prices) 4); [lia|].
    destruct (Nat.ltb_spec (length strike_prices) 2); [lia|].
    rewrite !andb_false_r. reflexivity. }
  rewrite Hcheck. simpl bind.
  destruct (leg_loop_ok stock_prices premiums positions strike_prices 0
              (np_zeros_like stock_prices)) as [payoff Epay]; [simpl; lia..|].
  rewrite Epay. simpl bind.
  destruct strike_prices as [|k0 [|k1 [|k2 [|k3 ks]]]]; simpl in Hk, Hp; try lia.
  destruct premiums as [|p0 [|p1 [|p2 [|p3 ps]]]]; simpl in Hp; try lia.
  unfold strategy_branch, and_is_not_None.
  destruct avg_stock_price as [avg|]; split_tests; eexists; reflexivity.
Qed.

Lemma payoff_returns_witness :
  exists c,
    calculate_payoff "Butterfly Spread" [100] [90; 100; 110; 120] [12; 5; 1; 1]
      ["Call"; "Call"; "Call"; "Call"] None = Ok c.
Proof.
  apply (payoff_returns "Butterfly Spread" [100] [90; 100; 110; 120] [12; 5; 1; 1]
           ["Call"; "Call"; "Call"; "Call"] None); simpl; lia.
Defined.

(** X30: Strategies outside the leg-count guard, called with too few legs:
    Butterfly Spread with fewer than three strikes, and Covered Call or
    Protective Put with an average price and no strike, fail with an
    [IndexError]; Long Call and Long Put with no strike return the zero
    curve. *)
Theorem unguarded_missing_legs (stock_prices premiums : list Q)
    (positions : list string) :
  (forall strike_prices avg_stock_price,
      (length strike_prices < 3)%nat ->
      (length strike_prices <= length premiums)%nat ->
      (length strike_prices <= length positions)%nat ->
      calculate_payoff "Butterfly Spread" stock_prices strike_prices premiums
        positions avg_stock_price = Raise IndexError)
  /\
  (forall strategy avg,
      str_in strategy ["Covered Call"; "Protective Put"] = true ->
      calculate_payoff strategy stock_prices [] premiums positions (Some avg)
      = Raise IndexError)
  /\
  (forall strategy avg_stock_price,
      str_in strategy ["Long Call"; "Long Put"] = true ->
      calculate_payoff strategy stock_prices [] premiums positions avg_stock_price
      = Ok (np_zeros_like stock_prices)).
Proof.
  split; [|split].
  - intros strike_prices avg_stock_price Hlt Hp Hpos.
    rewrite calculate_payoff_dedicated by (reflexivity || assumption).
    destruct strike_prices as [|k0 [|k1 [|k2 ks]]]; simpl in Hlt, Hp; try lia.
    + reflexivity.
    + destruct premiums as [|p0 ps]; simpl in Hp; [lia|]. reflexivity.
    + destruct premiums as [|p0 [|p1 ps]]; simpl in Hp; try lia. reflexivity.
  - intros strategy avg Hs. str_cases Hs; reflexivity.
  - intros strategy avg_stock_price Hs.
    str_cases Hs; destruct avg_stock_price; reflexivity.
Qed.

Lemma unguarded_missing_legs_witness :
  calculate_payoff "Butterfly Spread" [100] [90; 100] [12; 5] ["Call"; "Call"] None
  = Raise IndexError
  /\
  calculate_payoff "Covered Call" [100] [] [5] ["Call"] (Some 100) = Raise IndexError
  /\
  calculate_payoff "Long Put" [90; 100] [] [5] ["Put"] None
  = Ok (np_zeros_like [90; 100]).
Proof.
  pose proof (unguarded_missing_legs) as H.
  split; [|split].
  - apply (proj1 (H [100] [12; 5] ["Call"; "Call"])); simpl; lia.
  - apply (proj1 (proj2 (H [100] [5] ["Call"]))). reflexivity.
  - apply (proj2 (proj2 (H [90; 100] [5] ["Put"]))). reflexivity.
Defined.
